(** * go-mux: a CRUD microservice over one [products] table

    A shallow embedding of [model.go] (the data access layer) and of the
    file that defines [App] (routes, handlers, response functions), together
    with models of the parts of the Go standard library, of gorilla/mux and
    of the PostgreSQL table that the program's behaviour depends on. *)

From Stdlib Require Import ZArith Ascii String List Bool Lia.
From stdpp Require Import base option list strings gmap sorting.

Local Open Scope string_scope.
Local Open Scope Z_scope.

(** ** strconv

    Go strings are byte sequences: [string] over 8-bit [ascii].  [int] is the
    64-bit signed integer of the platforms the service is built for. *)

Module strconv.

Definition IntSize : Z := 64.
Definition maxUint64 : Z := 2 ^ 64 - 1.

Inductive NumError : Type := ErrSyntax | ErrRange.

Definition byte_of (c : ascii) : Z := Z.of_N (N_of_ascii c).

(** ['0' <= c && c <= '9'], with [d = c - '0']. *)
Definition digit (c : ascii) : option Z :=
  let b := byte_of c in
  if (48 <=? b) && (b <=? 57) then Some (b - 48) else None.

(** The loop of [ParseUint(s, 10, bitSize)]: [n] is the [uint64]
    accumulator.  A range error ends the loop at once, before the rest of
    the string is looked at. *)
Fixpoint ParseUint_loop (maxVal : Z) (s : string) (n : Z)
  : Z * option NumError :=
  match s with
  | EmptyString => (n, None)
  | String c s' =>
      match digit c with
      | None => (0, Some ErrSyntax)
      | Some d =>
          let cutoff := maxUint64 / 10 + 1 in
          if cutoff <=? n then (maxVal, Some ErrRange)
          else
            let n := n * 10 in
            let n1 := (n + d) mod 2 ^ 64 in
            if (n1 <? n) || (maxVal <? n1) then (maxVal, Some ErrRange)
            else ParseUint_loop maxVal s' n1
      end
  end.

Definition ParseUint (s : string) (bitSize : Z) : Z * option NumError :=
  match s with
  | EmptyString => (0, Some ErrSyntax)
  | _ =>
      let bitSize := if bitSize =? 0 then IntSize else bitSize in
      ParseUint_loop (2 ^ bitSize - 1) s 0
  end.

(** [ParseInt(s, 10, bitSize)]. *)
Definition ParseInt (s : string) (bitSize : Z) : Z * option NumError :=
  match s with
  | EmptyString => (0, Some ErrSyntax)
  | String c s' =>
      let '(neg, s1) :=
        if Ascii.eqb c "+" then (false, s')
        else if Ascii.eqb c "-" then (true, s')
        else (false, s) in
      match ParseUint s1 bitSize with
      | (_, Some ErrSyntax) => (0, Some ErrSyntax)
      | (un, _) =>
          let bitSize := if bitSize =? 0 then IntSize else bitSize in
          let cutoff := 2 ^ (bitSize - 1) in
          if negb neg && (cutoff <=? un) then (cutoff - 1, Some ErrRange)
          else if neg && (cutoff <? un) then (- cutoff, Some ErrRange)
          else (if neg then - un else un, None)
      end
  end.

(** The fast path of [Atoi], taken for strings shorter than 19 bytes:
    no overflow check is needed there. *)
Fixpoint Atoi_fast (s : string) (n : Z) : option Z :=
  match s with
  | EmptyString => Some n
  | String c s' =>
      match digit c with
      | None => None
      | Some d => Atoi_fast s' (n * 10 + d)
      end
  end.

Definition Atoi (s : string) : Z * option NumError :=
  let sLen := Z.of_nat (String.length s) in
  if (0 <? sLen) && (sLen <? 19) then
    match s with
    | EmptyString => (0, Some ErrSyntax)
    | String c s' =>
        let signed := Ascii.eqb c "-" || Ascii.eqb c "+" in
        let s1 := if signed then s' else s in
        if signed && (Z.of_nat (String.length s1) <? 1) then (0, Some ErrSyntax)
        else
          match Atoi_fast s1 0 with
          | None => (0, Some ErrSyntax)
          | Some n => (if Ascii.eqb c "-" then - n else n, None)
          end
    end
  else ParseInt s 0.

(** [Itoa]: the decimal numeral of an [int]. *)
Definition digit_char (d : Z) : ascii := ascii_of_N (Z.to_N (48 + d)).

Fixpoint Itoa_pos (fuel : nat) (n : Z) (acc : string) : string :=
  match fuel with
  | O => acc
  | S fuel' =>
      let acc := String (digit_char (n mod 10)) acc in
      if n <? 10 then acc else Itoa_pos fuel' (n / 10) acc
  end.

Definition Itoa (n : Z) : string :=
  if n <? 0 then String "-" (Itoa_pos 20 (- n) "") else Itoa_pos 20 n "".

End strconv.

(** ** The platform

    What the program takes from its environment and cannot be read off its
    source: the [float64] type with its conversions, and the [NUMERIC(10,2)]
    type of the [price] column. *)

Class Platform : Type := {
  float64 : Type;
  (** the zero value of a [float64] variable *)
  float64_zero : float64;
  (** [strconv.ParseFloat(lit, 64)] on a JSON number literal; [None] is an error *)
  ParseFloat : string -> option float64;
  (** the JSON encoding of a [float64]; [None] for the values JSON cannot hold *)
  FormatFloat : float64 -> option string;
  (** a price as the [NUMERIC(10,2)] column keeps it and hands it back *)
  numeric_10_2 : float64 -> float64
}.

(** Go's [error] values, compared by identity in [switch err]. *)
Inductive error : Type :=
| ErrNoRows                      (* sql.ErrNoRows *)
| ErrOther (msg : string).       (* any other error value *)

Definition Error (e : error) : string :=
  match e with
  | ErrNoRows => "sql: no rows in result set"
  | ErrOther msg => msg
  end.

(** JSON documents.  A number keeps its literal, as the decoder reads it and
    the encoder writes it. *)
#[local] Unset Elimination Schemes.
Inductive json : Type :=
| JNull
| JBool (b : bool)
| JNumber (lit : string)
| JString (s : string)
| JArray (elems : list json)
| JObject (members : list (string * json)).
#[local] Set Elimination Schemes.

Section Program.
Context `{Platform}.

(** ** model.go: the product *)

Record product : Type := mkProduct {
  ID : Z;            (* `json:"id"` *)
  Name : string;     (* `json:"name"` *)
  Price : float64    (* `json:"price"` *)
}.

(** [var p product] *)
Definition product_zero : product := mkProduct 0 "" float64_zero.

(** ** database/sql over the [products] table

    [products(id SERIAL PRIMARY KEY, name TEXT NOT NULL,
              price NUMERIC(10,2) NOT NULL DEFAULT 0.00)] *)

Definition row : Type := Z * string * float64.

Definition row_id (r : row) : Z := r.1.1.

(** The five statements the program sends, with their arguments. *)
Inductive stmt : Type :=
| SelectProduct (id : Z)
    (* SELECT name, price FROM products WHERE id=$1 *)
| UpdateProduct (name : string) (price : float64) (id : Z)
    (* UPDATE products SET name=$1, price=$2 WHERE id=$3 *)
| DeleteProduct (id : Z)
    (* DELETE FROM products WHERE id=$1 *)
| InsertProduct (name : string) (price : float64)
    (* INSERT INTO products(name, price) VALUES($1, $2) RETURNING id *)
| SelectProducts (count start : Z).
    (* SELECT id, name,  price FROM products LIMIT $1 OFFSET $2 *)

(** The database behind a [*sql.DB] handle: the table, the sequence that
    numbers new rows, the statements executed so far (latest first), and
    [fault], which tells for each statement whether driver or server refuse
    it for a reason outside this model (connection lost, value not
    acceptable for its column, ...), and with which message. *)
Record DB : Type := mkDB {
  table : list row;
  products_id_seq : Z;
  fault : stmt -> option string;
  log : list stmt
}.

(** What a statement gives back: result rows (each kept as the table row it
    comes from; [Scan] reads the columns the statement names) and the number
    of rows affected. *)
Record reply : Type := mkReply {
  result_rows : list row;
  RowsAffected : Z
}.

Definition has_id (id : Z) (r : row) : bool := row_id r =? id.

Definition dquote : string := String (ascii_of_N 34) "".

Definition pkey_violation : string :=
  "pq: duplicate key value violates unique constraint "
  +:+ dquote +:+ "products_pkey" +:+ dquote.

(** The effect of a statement that is not refused. *)
Definition run (db : DB) (s : stmt) : DB * (string + reply) :=
  let '(mkDB t seq f l) := db in
  match s with
  | SelectProduct id =>
      (db, inr (mkReply (filter (fun r => has_id id r = true) t) 0))
  | UpdateProduct name price id =>
      let t' := (fun r => if has_id id r then (id, name, numeric_10_2 price) else r) <$> t in
      (mkDB t' seq f l,
       inr (mkReply [] (Z.of_nat (length (filter (fun r => has_id id r = true) t)))))
  | DeleteProduct id =>
      (mkDB (filter (fun r => has_id id r = false) t) seq f l,
       inr (mkReply [] (Z.of_nat (length (filter (fun r => has_id id r = true) t)))))
  | InsertProduct name price =>
      let id := seq in
      if existsb (has_id id) t then (mkDB t (seq + 1) f l, inl pkey_violation)
      else
        let r := (id, name, numeric_10_2 price) in
        (mkDB (t ++ [r]) (seq + 1) f l, inr (mkReply [r] 1))
  | SelectProducts count start =>
      if start <? 0 then (db, inl "pq: OFFSET must not be negative")
      else if count <? 0 then (db, inl "pq: LIMIT must not be negative")
      else (db, inr (mkReply (take (Z.to_nat count) (drop (Z.to_nat start) t)) 0))
  end.

(** Sending a statement: it is logged, then refused or run. *)
Definition execute (db : DB) (s : stmt) : DB * (error + reply) :=
  let db := mkDB (table db) (products_id_seq db) (fault db) (s :: log db) in
  match fault db s with
  | Some msg => (db, inl (ErrOther msg))
  | None =>
      match run db s with
      | (db', inl msg) => (db', inl (ErrOther msg))
      | (db', inr rp) => (db', inr rp)
      end
  end.

(** [db.Exec(query, args...)] *)
Definition Exec (db : DB) (s : stmt) : DB * (error + reply) := execute db s.

(** [db.Query(query, args...)] *)
Definition Query (db : DB) (s : stmt) : DB * (error + list row) :=
  match execute db s with
  | (db', inl e) => (db', inl e)
  | (db', inr rp) => (db', inr (result_rows rp))
  end.

(** [db.QueryRow(query, args...)], up to the row that its [Scan] reads:
    the error of the query, [ErrNoRows] for an empty result, else the first
    row. *)
Definition QueryRow (db : DB) (s : stmt) : DB * (error + row) :=
  match Query db s with
  | (db', inl e) => (db', inl e)
  | (db', inr []) => (db', inl ErrNoRows)
  | (db', inr (r :: _)) => (db', inr r)
  end.

(** ** model.go: the data access layer

    The methods have a pointer receiver: they return the product as they
    leave it, next to the error. *)

Definition getProduct (p : product) (db : DB) : DB * product * option error :=
  match QueryRow db (SelectProduct (ID p)) with
  | (db', inl e) => (db', p, Some e)
  | (db', inr (_, name, price)) => (db', mkProduct (ID p) name price, None)
  end.

Definition updateProduct (p : product) (db : DB) : DB * product * option error :=
  match Exec db (UpdateProduct (Name p) (Price p) (ID p)) with
  | (db', inl e) => (db', p, Some e)
  | (db', inr _) => (db', p, None)
  end.

Definition deleteProduct (p : product) (db : DB) : DB * product * option error :=
  match Exec db (DeleteProduct (ID p)) with
  | (db', inl e) => (db', p, Some e)
  | (db', inr _) => (db', p, None)
  end.

Definition createProduct (p : product) (db : DB) : DB * product * option error :=
  match QueryRow db (InsertProduct (Name p) (Price p)) with
  | (db', inl e) => (db', p, Some e)
  | (db', inr (id, _, _)) => (db', mkProduct id (Name p) (Price p), None)
  end.

(** A slice is [None] when nil; [[]product{}] is [Some []]. *)
Definition slice (A : Type) : Type := option (list A).

Definition getProducts (db : DB) (start count : Z)
  : DB * (slice product * option error) :=
  match Query db (SelectProducts count start) with
  | (db', inl e) => (db', (None, Some e))
  | (db', inr rows) =>
      (db', (Some ((fun '(id, name, price) => mkProduct id name price) <$> rows), None))
  end.

(** ** encoding/json *)

(** ASCII case folding.  None of the names [id], [name], [price] has a
    letter with a case variant outside ASCII, so this is how the decoder
    compares an object key with them when the bytes differ. *)
Definition lower (c : ascii) : ascii :=
  let b := strconv.byte_of c in
  if (65 <=? b) && (b <=? 90) then ascii_of_N (Z.to_N (b + 32)) else c.

Fixpoint EqualFold (s t : string) : bool :=
  match s, t with
  | EmptyString, EmptyString => true
  | String a s', String b t' => Ascii.eqb (lower a) (lower b) && EqualFold s' t'
  | _, _ => false
  end.

(** One member of a JSON object stored into [p]: the field is found by its
    tag, [null] leaves it as it is, a value of the wrong kind or a number
    that does not fit is an error, a key that names no field is skipped. *)
Definition setField (p : product) (key : string) (v : json) : option product :=
  if EqualFold key "id" then
    match v with
    | JNull => Some p
    | JNumber lit =>
        match strconv.ParseInt lit 64 with
        | (n, None) => Some (mkProduct n (Name p) (Price p))
        | (_, Some _) => None
        end
    | _ => None
    end
  else if EqualFold key "name" then
    match v with
    | JNull => Some p
    | JString s => Some (mkProduct (ID p) s (Price p))
    | _ => None
    end
  else if EqualFold key "price" then
    match v with
    | JNull => Some p
    | JNumber lit =>
        match ParseFloat lit with
        | Some f => Some (mkProduct (ID p) (Name p) f)
        | None => None
        end
    | _ => None
    end
  else Some p.

Fixpoint setFields (p : product) (members : list (string * json)) : option product :=
  match members with
  | [] => Some p
  | (key, v) :: members' =>
      match setField p key v with
      | Some p' => setFields p' members'
      | None => None
      end
  end.

(** [json.NewDecoder(r.Body).Decode(&p)].  The body is given by the first
    JSON value of the stream, [None] when there is none (empty or malformed
    input).  [None] as result stands for a non-nil error; the handlers do
    not look at which. *)
Definition Decode (body : option json) (p : product) : option product :=
  match body with
  | None => None
  | Some JNull => Some p
  | Some (JObject members) => setFields p members
  | Some _ => None
  end.

(** The values the program passes to [respondWithJSON] as
    [payload interface{}]. *)
Inductive payload : Type :=
| PProduct (p : product)
| PProducts (ps : slice product)
| PMap (m : gmap string string).

Definition Marshal_product (p : product) : option json :=
  match FormatFloat (Price p) with
  | Some lit =>
      Some (JObject [("id", JNumber (strconv.Itoa (ID p)));
                     ("name", JString (Name p));
                     ("price", JNumber lit)])
  | None => None
  end.

Definition key_le (x y : string * string) : Prop := String.le x.1 y.1.

#[local] Instance key_le_dec : RelDecision key_le.
Proof. intros x y. unfold key_le. apply _. Defined.

(** [json.Marshal(payload)]: a nil slice is [null], an empty one [[]]; the
    keys of a map come out sorted. *)
Definition Marshal (v : payload) : option json :=
  match v with
  | PProduct p => Marshal_product p
  | PProducts None => Some JNull
  | PProducts (Some ps) => JArray <$> mapM Marshal_product ps
  | PMap m =>
      Some (JObject ((fun kv => (kv.1, JString kv.2))
                       <$> merge_sort key_le (map_to_list m)))
  end.

(** ** net/http *)

Definition StatusOK : Z := 200.
Definition StatusCreated : Z := 201.
Definition StatusBadRequest : Z := 400.
Definition StatusNotFound : Z := 404.
Definition StatusInternalServerError : Z := 500.

(** The parts of a [*http.Request] the program reads: method and URL path
    (for the router), the parsed form, the body, and the route variables
    that the router leaves in the request's context. *)
Record Request : Type := mkRequest {
  Method : string;
  Path : string;
  Form : gmap string (list string);
  Body : option json;
  Vars : gmap string string
}.

(** [r.FormValue(key)]: the first value for [key], or the empty string. *)
Definition FormValue (r : Request) (key : string) : string :=
  match Form r !! key with
  | Some (v :: _) => v
  | _ => ""
  end.

(** What a handler leaves in its [http.ResponseWriter]: status code,
    headers, and the body written ([None]: no bytes). *)
Record Response : Type := mkResponse {
  Code : Z;
  Header : gmap string string;
  Written : option json
}.

(** ** App: response functions *)

Definition respondWithJSON (code : Z) (v : payload) : Response :=
  let response := Marshal v in   (* the error of Marshal is dropped *)
  mkResponse code {["Content-Type" := "application/json"]} response.

Definition respondWithError (code : Z) (message : string) : Response :=
  respondWithJSON code (PMap {["error" := message]}).

(** ** App: handlers

    A handler gets the database behind [a.DB] and the request, and gives the
    database as it leaves it and the response. *)

End Program.

Module App.
Section Handlers.
Context `{Platform}.

Definition getProduct (db : DB) (r : Request) : DB * Response :=
  let vars := Vars r in
  match strconv.Atoi (default "" (vars !! "id")) with
  | (_, Some _) => (db, respondWithError StatusBadRequest "Invalid product ID")
  | (id, None) =>
      let p := mkProduct id "" float64_zero in
      match getProduct p db with
      | (db', _, Some err) =>
          match err with
          | ErrNoRows => (db', respondWithError StatusNotFound "Product not found")
          | _ => (db', respondWithError StatusInternalServerError (Error err))
          end
      | (db', p', None) => (db', respondWithJSON StatusOK (PProduct p'))
      end
  end.

Definition getProducts (db : DB) (r : Request) : DB * Response :=
  let '(count, _) := strconv.Atoi (FormValue r "count") in
  let '(start, _) := strconv.Atoi (FormValue r "start") in
  let count := if (10 <? count) || (count <? 1) then 10 else count in
  let start := if start <? 0 then 0 else start in
  match getProducts db start count with
  | (db', (_, Some err)) =>
      (db', respondWithError StatusInternalServerError (Error err))
  | (db', (products, None)) =>
      (db', respondWithJSON StatusOK (PProducts products))
  end.

Definition createProduct (db : DB) (r : Request) : DB * Response :=
  match Decode (Body r) product_zero with
  | None => (db, respondWithError StatusBadRequest "Invalid request payload")
  | Some p =>
      match createProduct p db with
      | (db', _, Some err) =>
          (db', respondWithError StatusInternalServerError (Error err))
      | (db', p', None) => (db', respondWithJSON StatusCreated (PProduct p'))
      end
  end.

Definition updateProduct (db : DB) (r : Request) : DB * Response :=
  let vars := Vars r in
  match strconv.Atoi (default "" (vars !! "id")) with
  | (_, Some _) => (db, respondWithError StatusBadRequest "Invalid product ID")
  | (id, None) =>
      match Decode (Body r) product_zero with
      | None => (db, respondWithError StatusBadRequest "Invalid resquest payload")
      | Some p =>
          let p := mkProduct id (Name p) (Price p) in   (* p.ID = id *)
          match updateProduct p db with
          | (db', _, Some err) =>
              (db', respondWithError StatusInternalServerError (Error err))
          | (db', p', None) => (db', respondWithJSON StatusOK (PProduct p'))
          end
      end
  end.

Definition deleteProduct (db : DB) (r : Request) : DB * Response :=
  let vars := Vars r in
  match strconv.Atoi (default "" (vars !! "id")) with
  | (_, Some _) => (db, respondWithError StatusBadRequest "Invalid Product ID")
  | (id, None) =>
      let p := mkProduct id "" float64_zero in
      match deleteProduct p db with
      | (db', _, Some err) =>
          (db', respondWithError StatusInternalServerError (Error err))
      | (db', _, None) =>
          (db', respondWithJSON StatusOK (PMap {["result" := "success"]}))
      end
  end.

End Handlers.
End App.

(** ** gorilla/mux: the router

    A route has a path template, the methods it accepts and a handler.  The
    two kinds of template the program registers: a fixed path, and a prefix
    followed by one variable with the pattern [[0-9]+], which the router
    compiles to the anchored expression [^prefix([0-9]+)$]. *)

Inductive template : Type :=
| Fixed (path : string)
| Numeric (prefix name : string).

Fixpoint all_digits (s : string) : bool :=
  match s with
  | EmptyString => true
  | String c s' => bool_decide (is_Some (strconv.digit c)) && all_digits s'
  end.

(** The whole of [s] matches [[0-9]+]. *)
Definition match_digits (s : string) : bool :=
  negb (String.eqb s "") && all_digits s.

Fixpoint strip_prefix (prefix s : string) : option string :=
  match prefix, s with
  | EmptyString, _ => Some s
  | String a prefix', String b s' =>
      if Ascii.eqb a b then strip_prefix prefix' s' else None
  | String _ _, EmptyString => None
  end.

Definition matchTemplate (t : template) (path : string) : option (gmap string string) :=
  match t with
  | Fixed p => if String.eqb path p then Some ∅ else None
  | Numeric prefix name =>
      match strip_prefix prefix path with
      | Some seg => if match_digits seg then Some {[name := seg]} else None
      | None => None
      end
  end.

Inductive handler : Type :=
| a_getProducts | a_createProduct | a_getProduct | a_updateProduct | a_deleteProduct.

Record route : Type := mkRoute {
  route_template : template;
  route_handler : handler;
  route_methods : list string
}.

(** [a.Router.HandleFunc(path, f).Methods(m)], in the order of
    [initializeRoutes]. *)
Definition initializeRoutes : list route :=
  [ mkRoute (Fixed "/products") a_getProducts ["GET"];
    mkRoute (Fixed "/product") a_createProduct ["POST"];
    mkRoute (Numeric "/product/" "id") a_getProduct ["GET"];
    mkRoute (Numeric "/product/" "id") a_updateProduct ["PUT"];
    mkRoute (Numeric "/product/" "id") a_deleteProduct ["DELETE"] ].

Definition routeMatch (rt : route) (r : Request) : option (gmap string string) :=
  if bool_decide (Method r ∈ route_methods rt)
  then matchTemplate (route_template rt) (Path r)
  else None.

(** [Router.Match]: the first route that matches, with its variables. *)
Fixpoint Match (routes : list route) (r : Request)
  : option (handler * gmap string string) :=
  match routes with
  | [] => None
  | rt :: routes' =>
      match routeMatch rt r with
      | Some vars => Some (route_handler rt, vars)
      | None => Match routes' r
      end
  end.

Section Serve.
Context `{Platform}.

Definition call (h : handler) : DB -> Request -> DB * Response :=
  match h with
  | a_getProducts => App.getProducts
  | a_createProduct => App.createProduct
  | a_getProduct => App.getProduct
  | a_updateProduct => App.updateProduct
  | a_deleteProduct => App.deleteProduct
  end.

(** [a.Router.ServeHTTP] for a request that some route matches: the
    handler runs on the request with the route variables set.  [None]:
    no route matches, and the router answers by itself. *)
Definition ServeHTTP (db : DB) (r : Request) : option (DB * Response) :=
  match Match initializeRoutes r with
  | Some (h, vars) =>
      Some (call h db (mkRequest (Method r) (Path r) (Form r) (Body r) vars))
  | None => None
  end.

End Serve.

(** ** A platform to run the program on

    Prices as fixed-point decimals with four fractional digits, held as the
    number of ten-thousandths: enough to read and write literals such as
    [11.22] and to see the column round. *)

Module FixedPoint.

Fixpoint split_dot (s : string) : string * option string :=
  match s with
  | EmptyString => (EmptyString, None)
  | String c s' =>
      if Ascii.eqb c "." then (EmptyString, Some s')
      else let '(i, f) := split_dot s' in (String c i, f)
  end.

(** [-?digits(.digits)?] with at most four fractional digits. *)
Definition parse (lit : string) : option Z :=
  let '(neg, s) :=
    match lit with
    | String c s' => if Ascii.eqb c "-" then (true, s') else (false, lit)
    | EmptyString => (false, lit)
    end in
  let '(i, f) := split_dot s in
  let f := default "0" f in
  if match_digits i && match_digits f && (Z.of_nat (String.length f) <=? 4) then
    match strconv.Atoi_fast i 0,
          strconv.Atoi_fast (substring 0 4 (f +:+ "000")) 0 with
    | Some a, Some b => Some ((if neg then -1 else 1) * (a * 10000 + b))
    | _, _ => None
    end
  else None.

Fixpoint strip_zeros (fuel : nat) (n : Z) (digits : nat) : Z * nat :=
  match fuel with
  | O => (n, digits)
  | S fuel' =>
      if (n mod 10 =? 0) && negb (Nat.eqb digits 0)
      then strip_zeros fuel' (n / 10) (Nat.pred digits)
      else (n, digits)
  end.

Fixpoint pad (fuel width : nat) (s : string) : string :=
  match fuel with
  | O => s
  | S fuel' =>
      if Nat.ltb (String.length s) width then pad fuel' width (String "0" s) else s
  end.

Definition format (z : Z) : string :=
  let a := Z.abs z in
  let '(f, digits) := strip_zeros 4 (a mod 10000) 4%nat in
  (if z <? 0 then "-" else "") +:+ strconv.Itoa (a / 10000)
  +:+ (if Nat.eqb digits 0 then ""
       else "." +:+ pad 4 digits (strconv.Itoa f)).

(** Rounding to two fractional digits, ties away from zero. *)
Definition round2 (z : Z) : Z :=
  Z.sgn z * ((Z.abs z + 50) / 100 * 100).

Definition platform : Platform := {|
  float64 := Z;
  float64_zero := 0;
  ParseFloat := parse;
  FormatFloat := fun z => Some (format z);
  numeric_10_2 := round2
|}.

End FixedPoint.

(** ** Reading the specification

    The decimal value of a numeral, and the clamping of the list
    parameters, written as the specification words them. *)

Fixpoint numeral_from (s : string) (n : Z) : Z :=
  match s with
  | EmptyString => n
  | String c s' => numeral_from s' (n * 10 + default 0 (strconv.digit c))
  end.

Definition numeral (s : string) : Z := numeral_from s 0.

Definition maxInt : Z := 2 ^ 63 - 1.

(** "if [count] outside [1,10], reset to 10" *)
Definition clamp_count (count : Z) : Z :=
  if decide (1 <= count <= 10) then count else 10.

(** "if [start] negative, reset to 0" *)
Definition clamp_start (start : Z) : Z :=
  if decide (start < 0) then 0 else start.

Definition json_header : gmap string string :=
  {["Content-Type" := "application/json"]}.

(** The response [{"error": message}] with status [code]. *)
Definition error_response (code : Z) (message : string) : Response :=
  mkResponse code json_header (Some (JObject [("error", JString message)])).

(** No stored product has this id. *)
Definition absent `{Platform} (id : Z) (db : DB) : Prop :=
  Forall (fun r => row_id r <> id) (table db).

(** The members of an object, less those that the decoder stores into the
    field tagged [tag]. *)
Definition without (tag : string) (members : list (string * json))
  : list (string * json) :=
  filter (fun kv => EqualFold kv.1 tag = false) members.

(** The rows a range query gives: [start] rows skipped, at most [count]
    rows taken, in the order of the table. *)
Definition range `{Platform} (db : DB) (start count : Z) : list row :=
  take (Z.to_nat count) (drop (Z.to_nat start) (table db)).

(** The handlers registered under [/product/{id:[0-9]+}]. *)
Definition by_id (h : handler) : Prop :=
  h = a_getProduct \/ h = a_updateProduct \/ h = a_deleteProduct.

(** The message of each of them for an id that does not parse. *)
Definition invalid_id_message (h : handler) : string :=
  match h with
  | a_deleteProduct => "Invalid Product ID"
  | _ => "Invalid product ID"
  end.

(** A price that the column keeps as it is: a decimal with two fractional
    digits, within the range of [NUMERIC(10,2)]. *)
Definition kept_by_column `{Platform} (price : float64) : Prop :=
  numeric_10_2 price = price.

(** The database once [s] has been sent and has changed nothing. *)
Definition logged `{Platform} (db : DB) (s : stmt) : DB :=
  mkDB (table db) (products_id_seq db) (fault db) (s :: log db).

(** ** Sample data

    The scenarios of the test suite, on the fixed-point platform: the table
    as [clearTable] leaves it, and requests as the router hands them to the
    handlers. *)

Module Sample.

Definition empty_db : @DB FixedPoint.platform :=
  @mkDB FixedPoint.platform [] 1 (fun _ => None) [].

(** A database whose connection is gone. *)
Definition down_db : @DB FixedPoint.platform :=
  @mkDB FixedPoint.platform [] 1 (fun _ => Some "driver: bad connection") [].

(** A product with its price in ten-thousandths. *)
Definition item (id : Z) (name : string) (price : Z) : @product FixedPoint.platform :=
  @mkProduct FixedPoint.platform id name price.

Definition request (method path : string) (body : option json) : Request :=
  mkRequest method path ∅ body ∅.

(** The same with the [id] variable of the route set. *)
Definition routed (method path id : string) (body : option json) : Request :=
  mkRequest method path ∅ body {["id" := id]}.

(** [{"name":"test product", "price": 11.22}] *)
Definition test_product : json :=
  JObject [("name", JString "test product"); ("price", JNumber "11.22")].

(** [{"id": 99, "name":"test product - updated name", "price": 11.22}] *)
Definition updated_product : json :=
  JObject [("id", JNumber "99");
           ("name", JString "test product - updated name");
           ("price", JNumber "11.22")].

(** [{"name":"widget"}] *)
Definition no_price : json := JObject [("name", JString "widget")].

(** [empty_db] once the test product has been created. *)
Definition created_db : @DB FixedPoint.platform :=
  @mkDB FixedPoint.platform [(1, "test product", 112200)] 2 (fun _ => None)
    [@InsertProduct FixedPoint.platform "test product" 112200].

End Sample.

(** ** Vocabulary for the table and the handlers *)

(** The primary key: no two rows with the same id. *)
Definition keyed `{Platform} (db : DB) : Prop :=
  NoDup (row_id <$> table db).

(** The sequence is ahead of every id in the table. *)
Definition ahead `{Platform} (db : DB) : Prop :=
  Forall (fun r => row_id r < products_id_seq db) (table db).

(** Some stored product has this id. *)
Definition stored `{Platform} (id : Z) (db : DB) : Prop :=
  Exists (fun r => row_id r = id) (table db).

(** The product that [rows.Scan(&p.ID, &p.Name, &p.Price)] reads off a row. *)
Definition product_of_row `{Platform} (r : row) : product :=
  let '(id, name, price) := r in mkProduct id name price.

(** The JSON object [{"id": .., "name": .., "price": ..}] of a row; none
    when the price has no JSON encoding. *)
Definition row_json `{Platform} (r : row) : option json :=
  let '(id, name, price) := r in
  match FormatFloat price with
  | Some lit =>
      Some (JObject [("id", JNumber (strconv.Itoa id));
                     ("name", JString name);
                     ("price", JNumber lit)])
  | None => None
  end.

(** The statement that a handler sends, if it sends one. *)
Definition sends `{Platform} (h : handler) (s : stmt) : Prop :=
  match h, s with
  | a_getProducts, SelectProducts _ _ => True
  | a_createProduct, InsertProduct _ _ => True
  | a_getProduct, SelectProduct _ => True
  | a_updateProduct, UpdateProduct _ _ _ => True
  | a_deleteProduct, DeleteProduct _ => True
  | _, _ => False
  end.

(** The status codes that occur in the body of each handler. *)
Definition status_codes (h : handler) : list Z :=
  match h with
  | a_getProducts => [StatusOK; StatusInternalServerError]
  | a_createProduct => [StatusCreated; StatusBadRequest; StatusInternalServerError]
  | a_getProduct =>
      [StatusOK; StatusBadRequest; StatusNotFound; StatusInternalServerError]
  | a_updateProduct => [StatusOK; StatusBadRequest; StatusInternalServerError]
  | a_deleteProduct => [StatusOK; StatusBadRequest; StatusInternalServerError]
  end.

(** A request as the router passes it on, with the route variables set. *)
Definition withVars (r : Request) (vars : gmap string string) : Request :=
  mkRequest (Method r) (Path r) (Form r) (Body r) vars.

(** ** A platform with a price that JSON cannot hold

    The fixed-point platform with one more value, [None], for the [NaN]
    that a [float64] and a [NUMERIC] column can hold and JSON cannot. *)

Module FixedPointNaN.

Definition platform : Platform := {|
  float64 := option Z;
  float64_zero := Some 0;
  ParseFloat := fun lit => Some <$> FixedPoint.parse lit;
  FormatFloat := fun f => FixedPoint.format <$> f;
  numeric_10_2 := fun f => FixedPoint.round2 <$> f
|}.

(** A table with one row, whose price is [NaN]. *)
Definition nan_db : @DB platform :=
  @mkDB platform [(1, "broken", None)] 2 (fun _ => None) [].

End FixedPointNaN.

(** ** More sample data *)

Module Fixture.

(** Two products, as [addProducts(2)] leaves the table. *)
Definition two_db : @DB FixedPoint.platform :=
  @mkDB FixedPoint.platform
    [(1, "Product 0", 100000); (2, "Product 1", 200000)] 3 (fun _ => None) [].

(** [two_db] once product 1 has been deleted. *)
Definition deleted_db : @DB FixedPoint.platform :=
  @mkDB FixedPoint.platform [(2, "Product 1", 200000)] 3 (fun _ => None)
    [@DeleteProduct FixedPoint.platform 1].

(** [two_db] once product 1 has been renamed and priced at 11.225. *)
Definition updated_db : @DB FixedPoint.platform :=
  @mkDB FixedPoint.platform
    [(1, "renamed", 112300); (2, "Product 1", 200000)] 3 (fun _ => None)
    [@UpdateProduct FixedPoint.platform "renamed" 112250 1].

(** [{"id": 5, "name":"test product", "price": 11.22}] *)
Definition with_id : json :=
  JObject [("id", JNumber "5");
           ("name", JString "test product");
           ("price", JNumber "11.22")].

End Fixture.

(** * Properties *)

Section Responses.
Context `{Platform}.

Lemma Marshal_singleton (k v : string) :
  Marshal (PMap {[k := v]}) = Some (JObject [(k, JString v)]).
Proof.
  unfold Marshal. rewrite map_to_list_singleton. reflexivity.
Qed.

Lemma respondWithError_eq code message :
  respondWithError code message = error_response code message.
Proof.
  unfold respondWithError, respondWithJSON, error_response.
  by rewrite Marshal_singleton.
Qed.

End Responses.

(** ** strconv.Atoi on numerals *)

Section AtoiFacts.
Import strconv.

Lemma digit_range c d : digit c = Some d -> 0 <= d <= 9.
Proof.
  unfold digit. destruct (_ && _) eqn:E; [|discriminate].
  apply andb_true_iff in E as [?%Z.leb_le ?%Z.leb_le].
  intros [= <-]. lia.
Qed.

Lemma digit_not_sign c d :
  digit c = Some d -> Ascii.eqb c "+" = false /\ Ascii.eqb c "-" = false.
Proof.
  destruct c as [[] [] [] [] [] [] [] []]; vm_compute; intros; (discriminate || auto).
Qed.

Lemma all_digits_cons c s :
  all_digits (String c s) = true ->
  (exists d, digit c = Some d) /\ all_digits s = true.
Proof.
  simpl. intros [Hc Hs]%andb_true_iff. split; [|done].
  apply bool_decide_eq_true in Hc as [d Hd]. eauto.
Qed.

Lemma numeral_from_ge s : forall n, 0 <= n -> n <= numeral_from s n.
Proof.
  induction s as [|c s IH]; intros n Hn; simpl; [lia|].
  assert (0 <= default 0 (digit c)).
  { destruct (digit c) eqn:E; simpl; [apply digit_range in E|]; lia. }
  etransitivity; [|apply IH]; lia.
Qed.

Lemma numeral_from_lt s :
  forall n, 0 <= n -> numeral_from s n < (n + 1) * 10 ^ Z.of_nat (String.length s).
Proof.
  induction s as [|c s IH]; intros n Hn.
  - simpl. lia.
  - cbn [numeral_from String.length].
    assert (0 <= default 0 (digit c) <= 9) as Hd.
    { destruct (digit c) eqn:E; simpl; [apply digit_range in E|]; lia. }
    eapply Z.lt_le_trans; [apply IH; lia|].
    rewrite Nat2Z.inj_succ, Z.pow_succ_r by lia.
    assert (0 < 10 ^ Z.of_nat (String.length s)) by (apply Z.pow_pos_nonneg; lia).
    nia.
Qed.

Lemma Atoi_fast_numeral s :
  all_digits s = true -> forall n, Atoi_fast s n = Some (numeral_from s n).
Proof.
  induction s as [|c s IH]; intros Hs n; [done|].
  apply all_digits_cons in Hs as [[d Hd] Hs].
  simpl. rewrite Hd. simpl. by apply IH.
Qed.

Lemma ParseUint_loop_numeral s :
  all_digits s = true ->
  forall n, 0 <= n <= maxUint64 ->
  ParseUint_loop maxUint64 s n =
    if numeral_from s n <=? maxUint64 then (numeral_from s n, None)
    else (maxUint64, Some ErrRange).
Proof.
  induction s as [|c s IH]; intros Hs n Hn.
  - simpl. destruct (Z.leb_spec n maxUint64); [done|lia].
  - apply all_digits_cons in Hs as [[d Hd] Hs].
    pose proof (digit_range _ _ Hd) as Hr.
    cbn [ParseUint_loop numeral_from]. rewrite Hd.
    change (default 0 (Some d)) with d.
    unfold maxUint64 in *.
    change (2 ^ 64) with 18446744073709551616 in *.
    change ((18446744073709551616 - 1) / 10 + 1) with 1844674407370955162.
    destruct (Z.leb_spec 1844674407370955162 n) as [Hcut|Hcut].
    + pose proof (numeral_from_ge s (n * 10 + d)).
      destruct (Z.leb_spec (numeral_from s (n * 10 + d)) (18446744073709551616 - 1));
        [lia|done].
    + destruct (Z.ltb_spec ((n * 10 + d) mod 18446744073709551616) (n * 10)) as [Hw|Hw].
      * pose proof (numeral_from_ge s (n * 10 + d)).
        assert (18446744073709551616 <= n * 10 + d).
        { destruct (Z.lt_ge_cases (n * 10 + d) 18446744073709551616); [|done].
          rewrite Z.mod_small in Hw; lia. }
        simpl.
        destruct (Z.leb_spec (numeral_from s (n * 10 + d)) (18446744073709551616 - 1));
          [lia|done].
      * assert (n * 10 + d < 18446744073709551616).
        { destruct (Z.lt_ge_cases (n * 10 + d) 18446744073709551616); [done|].
          rewrite <- (Z_mod_plus_full _ (-1)) in Hw.
          rewrite Z.mod_small in Hw; lia. }
        rewrite Z.mod_small by lia.
        destruct (Z.ltb_spec (18446744073709551616 - 1) (n * 10 + d)); [lia|].
        simpl. apply IH; [done|lia].
Qed.

End AtoiFacts.

(** On a string that matches [[0-9]+], [Atoi] gives the value of the numeral
    when it fits an [int], and a range error with the largest [int]
    otherwise. *)
Lemma Atoi_numeral seg :
  match_digits seg = true ->
  strconv.Atoi seg =
    if numeral seg <=? maxInt then (numeral seg, None)
    else (maxInt, Some strconv.ErrRange).
Proof.
  unfold match_digits. intros [Hne Hd]%andb_true_iff.
  destruct seg as [|c s]; [done|]. clear Hne.
  pose proof Hd as Hc. apply all_digits_cons in Hc as [[d Hc] _].
  destruct (digit_not_sign _ _ Hc) as [Hplus Hminus].
  unfold strconv.Atoi, numeral.
  destruct (_ && _) eqn:Hlen.
  - apply andb_true_iff in Hlen as [_ Hlen%Z.ltb_lt].
    rewrite Hplus, Hminus. cbn [orb andb].
    rewrite Atoi_fast_numeral by done.
    pose proof (numeral_from_lt (String c s) 0 ltac:(lia)) as Hlt.
    assert (10 ^ Z.of_nat (String.length (String c s)) <= 10 ^ 18)
      by (apply Z.pow_le_mono_r; lia).
    destruct (Z.leb_spec (numeral_from (String c s) 0) maxInt) as [|Hgt]; [done|].
    unfold maxInt in Hgt. lia.
  - unfold strconv.ParseInt. rewrite Hplus, Hminus.
    unfold strconv.ParseUint. cbn [Z.eqb].
    change (2 ^ strconv.IntSize - 1) with strconv.maxUint64.
    rewrite ParseUint_loop_numeral by (done || (unfold strconv.maxUint64; lia)).
    change (2 ^ (strconv.IntSize - 1)) with (maxInt + 1).
    unfold strconv.maxUint64, maxInt.
    destruct (Z.leb_spec (numeral_from (String c s) 0) (2 ^ 64 - 1)) as [Hle|Hgt].
    + cbn [negb andb].
      destruct (Z.leb_spec (2 ^ 63 - 1 + 1) (numeral_from (String c s) 0));
        destruct (Z.leb_spec (numeral_from (String c s) 0) (2 ^ 63 - 1));
        try lia; f_equal; lia.
    + cbn [negb andb].
      destruct (Z.leb_spec (2 ^ 63 - 1 + 1) (2 ^ 64 - 1)); [|lia].
      destruct (Z.leb_spec (numeral_from (String c s) 0) (2 ^ 63 - 1)); [lia|].
      f_equal; lia.
Qed.

(** ** The router *)

Lemma strip_prefix_app prefix : forall s seg,
  strip_prefix prefix s = Some seg -> s = prefix +:+ seg.
Proof.
  induction prefix as [|a prefix IH]; intros s seg; simpl.
  - by intros [= ->].
  - destruct s as [|b s]; [done|].
    destruct (Ascii.eqb_spec a b) as [->|]; [|done].
    intros Hs. by rewrite (IH _ _ Hs).
Qed.

Lemma matchTemplate_Numeric prefix name path vars :
  matchTemplate (Numeric prefix name) path = Some vars ->
  exists seg, path = prefix +:+ seg /\ match_digits seg = true /\ vars = {[name := seg]}.
Proof.
  simpl. destruct (strip_prefix prefix path) as [seg|] eqn:Hp; [|done].
  destruct (match_digits seg) eqn:Hm; [|done].
  intros [= <-]. exists seg. by rewrite (strip_prefix_app _ _ _ Hp).
Qed.

Lemma Match_by_id r h vars :
  Match initializeRoutes r = Some (h, vars) -> by_id h ->
  exists seg,
    Path r = "/product/" +:+ seg /\ match_digits seg = true /\ vars = {["id" := seg]}.
Proof.
  unfold initializeRoutes, Match, routeMatch, by_id.
  cbn [route_methods route_template route_handler].
  intros HM Hh.
  repeat match type of HM with
  | context [bool_decide ?P] => destruct (bool_decide P)
  | context [matchTemplate ?t ?p] =>
      let E := fresh "E" in destruct (matchTemplate t p) eqn:E
  end;
  try discriminate; injection HM as <- <-;
  try (destruct Hh as [Hh|[Hh|Hh]]; discriminate Hh);
  eauto using matchTemplate_Numeric.
Qed.

Section Claims.
Context `{Platform}.

(** C5 (amended).  For a request that matches one of the
    [/product/{id:[0-9]+}] routes, the id segment is a non-empty string of
    digits, and [strconv.Atoi] succeeds on it exactly when the value of
    the numeral is at most 2^63-1.  For a larger numeral [Atoi] gives a
    range error, and the handler of the route answers 400 with its
    invalid-id message ([Invalid product ID] for GetProduct): the branch can
    be reached through the router. *)
Theorem routed_id_Atoi r h vars :
  Match initializeRoutes r = Some (h, vars) -> by_id h ->
  exists seg,
    Path r = "/product/" +:+ seg /\ vars !! "id" = Some seg /\
    match_digits seg = true /\
    strconv.Atoi seg =
      (if numeral seg <=? maxInt then (numeral seg, None)
       else (maxInt, Some strconv.ErrRange)) /\
    (maxInt < numeral seg ->
     forall db,
       call h db (mkRequest (Method r) (Path r) (Form r) (Body r) vars)
       = (db, error_response 400 (invalid_id_message h))).
Proof.
  intros HM Hh.
  destruct (Match_by_id _ _ _ HM Hh) as (seg & HP & Hd & ->).
  exists seg. rewrite lookup_singleton_eq.
  pose proof (Atoi_numeral _ Hd) as HA.
  repeat split; try done.
  intros Hbig db.
  destruct (Z.leb_spec (numeral seg) maxInt); [lia|].
  destruct Hh as [->|[->| ->]]; cbn [call invalid_id_message];
    unfold App.getProduct, App.updateProduct, App.deleteProduct; cbn [Vars];
    rewrite lookup_singleton_eq; cbn [default from_option id]; rewrite HA;
    by rewrite respondWithError_eq.
Qed.

Lemma execute_log db s : log (execute db s).1 = s :: log db.
Proof.
  unfold execute. cbn [fault].
  destruct (fault db s); [done|].
  destruct s; cbn [run]; try done.
  - by destruct (existsb _ _).
  - destruct (_ <? 0); [done|]. by destruct (_ <? 0).
Qed.

Lemma getProducts_log db start count :
  log (getProducts db start count).1 = SelectProducts count start :: log db.
Proof.
  unfold getProducts, Query.
  pose proof (execute_log db (SelectProducts count start)) as Hl.
  by destruct (execute db (SelectProducts count start)) as [db' [e|rp]].
Qed.

Lemma clamp_count_eq count :
  (if (10 <? count) || (count <? 1) then 10 else count) = clamp_count count.
Proof.
  unfold clamp_count.
  destruct (Z.ltb_spec 10 count), (Z.ltb_spec count 1), (decide _); simpl; lia.
Qed.

Lemma clamp_start_eq start :
  (if start <? 0 then 0 else start) = clamp_start start.
Proof.
  unfold clamp_start. destruct (Z.ltb_spec start 0), (decide _); lia.
Qed.

(** C2.  The ListProducts handler sends the range query with the parsed
    [count] reset to 10 when it is outside [1,10] and the parsed [start]
    reset to 0 when it is negative.  A parameter that is not given parses
    as 0, which makes the defaults [count=10] and [start=0]. *)
Theorem getProducts_clamps db r :
  let count := (strconv.Atoi (FormValue r "count")).1 in
  let start := (strconv.Atoi (FormValue r "start")).1 in
  log (App.getProducts db r).1
    = SelectProducts (clamp_count count) (clamp_start start) :: log db /\
  1 <= clamp_count count <= 10 /\ 0 <= clamp_start start /\
  (Form r !! "count" = None -> clamp_count count = 10) /\
  (Form r !! "start" = None -> clamp_start start = 0).
Proof.
  intros count start. repeat split.
  - unfold App.getProducts. subst count start.
    destruct (strconv.Atoi (FormValue r "count")) as [count ?].
    destruct (strconv.Atoi (FormValue r "start")) as [start ?].
    cbn [fst]. rewrite clamp_count_eq, clamp_start_eq.
    pose proof (getProducts_log db (clamp_start start) (clamp_count count)) as Hl.
    by destruct (getProducts _ _ _) as [db' [ps [e|]]].
  - unfold clamp_count. destruct (decide _); lia.
  - unfold clamp_count. destruct (decide _); lia.
  - unfold clamp_start. destruct (decide _); lia.
  - intros Hc. subst count. unfold FormValue. by rewrite Hc.
  - intros Hs. subst start. unfold FormValue. by rewrite Hs.
Qed.

(** *** The statements, one by one *)

Lemma execute_refused db s msg :
  fault db s = Some msg -> execute db s = (logged db s, inl (ErrOther msg)).
Proof. unfold execute. cbn [fault]. by intros ->. Qed.

Lemma execute_select db id :
  fault db (SelectProduct id) = None ->
  execute db (SelectProduct id)
  = (logged db (SelectProduct id),
     inr (mkReply (filter (fun r => has_id id r = true) (table db)) 0)).
Proof. unfold execute. cbn [fault]. by intros ->. Qed.

Lemma execute_update db name price id :
  fault db (UpdateProduct name price id) = None ->
  exists db',
    execute db (UpdateProduct name price id)
    = (db', inr (mkReply [] (Z.of_nat (length
                   (filter (fun r => has_id id r = true) (table db)))))).
Proof. unfold execute. cbn [fault]. intros ->. cbn [run]. eauto. Qed.

Lemma execute_delete db id :
  fault db (DeleteProduct id) = None ->
  exists db',
    execute db (DeleteProduct id)
    = (db', inr (mkReply [] (Z.of_nat (length
                   (filter (fun r => has_id id r = true) (table db)))))).
Proof. unfold execute. cbn [fault]. intros ->. cbn [run]. eauto. Qed.

Lemma absent_filter id db :
  absent id db -> filter (fun r => has_id id r = true) (table db) = [].
Proof.
  unfold absent. induction 1 as [|r t Hr _ IH]; [done|].
  rewrite filter_cons_False; [done|].
  unfold has_id. rewrite Z.eqb_eq. done.
Qed.

Lemma getProduct_absent db p :
  fault db (SelectProduct (ID p)) = None -> absent (ID p) db ->
  getProduct p db = (logged db (SelectProduct (ID p)), p, Some ErrNoRows).
Proof.
  intros Hf Ha. unfold getProduct, QueryRow, Query.
  rewrite execute_select by done. cbn [result_rows].
  by rewrite absent_filter.
Qed.

(** C3.  GetProduct on an id that no stored product has: the data access
    layer reports [sql.ErrNoRows], and the response is 404 with the error
    message [Product not found].  Any other error [e] of the data access
    layer, such as a refused statement, gives 500 with [e.Error()] as the
    error message. *)
Theorem getProduct_errors db r id :
  strconv.Atoi (default "" (Vars r !! "id")) = (id, None) ->
  let p := mkProduct id "" float64_zero in
  (fault db (SelectProduct id) = None -> absent id db ->
     (getProduct p db).2 = Some ErrNoRows) /\
  ((getProduct p db).2 = Some ErrNoRows ->
     (App.getProduct db r).2 = error_response 404 "Product not found") /\
  (forall e, (getProduct p db).2 = Some e -> e <> ErrNoRows ->
     (App.getProduct db r).2 = error_response 500 (Error e)) /\
  (forall msg, fault db (SelectProduct id) = Some msg ->
     (App.getProduct db r).2 = error_response 500 msg).
Proof.
  intros HA p.
  assert (forall e, (getProduct p db).2 = Some e ->
            (App.getProduct db r).2 =
              match e with
              | ErrNoRows => error_response 404 "Product not found"
              | _ => error_response 500 (Error e)
              end) as Herr.
  { intros e He. unfold App.getProduct. rewrite HA. fold p.
    destruct (getProduct p db) as [[db' p'] oe]. cbn [snd] in He. subst oe.
    destruct e; cbn [snd]; by rewrite respondWithError_eq. }
  repeat split.
  - intros Hf Ha. subst p. by rewrite getProduct_absent.
  - intros He. apply (Herr _ He).
  - intros e He Hne. rewrite (Herr _ He). by destruct e.
  - intros msg Hf. apply (Herr (ErrOther msg)).
    subst p. unfold getProduct, QueryRow, Query. cbn [ID].
    by rewrite (execute_refused _ _ _ Hf).
Qed.

Lemma update_absent_rows id v (t : list row) :
  Forall (fun row => has_id id row = false) t ->
  (fun row => if has_id id row then v else row) <$> t = t.
Proof.
  induction 1 as [|row t Hrow _ IH]; [done|].
  cbn [fmap list_fmap]. rewrite Hrow. by f_equal.
Qed.

Lemma delete_absent_rows id (t : list row) :
  Forall (fun row => has_id id row = false) t ->
  filter (fun row => has_id id row = false) t = t.
Proof.
  induction 1 as [|row t Hrow _ IH]; [done|].
  rewrite filter_cons_True by done. by f_equal.
Qed.

(** C4.  Update and delete drop the result of [Exec], and with it the
    number of rows affected.  Whenever the statement is not refused, the
    UpdateProduct handler sends the UPDATE and answers 200 with the path id
    and the submitted name and price, and the DeleteProduct handler sends
    the DELETE and answers 200 with [{"result":"success"}]; this holds for
    every id, and for an id that no stored product has the statement
    affects 0 rows and leaves the table as it is. *)
Theorem update_delete_ignore_rows db r id :
  strconv.Atoi (default "" (Vars r !! "id")) = (id, None) ->
  (forall p, Decode (Body r) product_zero = Some p ->
     fault db (UpdateProduct (Name p) (Price p) id) = None ->
     (App.updateProduct db r).2
     = mkResponse 200 json_header
         (match FormatFloat (Price p) with
          | Some lit =>
              Some (JObject [("id", JNumber (strconv.Itoa id));
                             ("name", JString (Name p));
                             ("price", JNumber lit)])
          | None => None
          end) /\
     log (App.updateProduct db r).1
     = UpdateProduct (Name p) (Price p) id :: log db /\
     table (App.updateProduct db r).1
     = (fun row => if has_id id row
                   then (id, Name p, numeric_10_2 (Price p)) else row)
         <$> table db /\
     (Exec db (UpdateProduct (Name p) (Price p) id)).2
     = inr (mkReply [] (Z.of_nat (length
              (filter (fun row => has_id id row = true) (table db))))) /\
     (absent id db ->
      (Exec db (UpdateProduct (Name p) (Price p) id)).2 = inr (mkReply [] 0) /\
      table (App.updateProduct db r).1 = table db)) /\
  (fault db (DeleteProduct id) = None ->
     (App.deleteProduct db r).2
     = mkResponse 200 json_header (Some (JObject [("result", JString "success")])) /\
     log (App.deleteProduct db r).1 = DeleteProduct id :: log db /\
     table (App.deleteProduct db r).1
     = filter (fun row => has_id id row = false) (table db) /\
     (Exec db (DeleteProduct id)).2
     = inr (mkReply [] (Z.of_nat (length
              (filter (fun row => has_id id row = true) (table db))))) /\
     (absent id db ->
      (Exec db (DeleteProduct id)).2 = inr (mkReply [] 0) /\
      table (App.deleteProduct db r).1 = table db)).
Proof.
  intros HA. split.
  - intros p HD Hf.
    assert (App.updateProduct db r
            = (mkDB ((fun row => if has_id id row
                                 then (id, Name p, numeric_10_2 (Price p)) else row)
                       <$> table db)
                 (products_id_seq db) (fault db)
                 (UpdateProduct (Name p) (Price p) id :: log db),
               respondWithJSON 200 (PProduct (mkProduct id (Name p) (Price p)))))
      as HR.
    { unfold App.updateProduct. rewrite HA, HD.
      unfold updateProduct, Exec, execute. cbn [ID Name Price fault].
      by rewrite Hf. }
    assert ((Exec db (UpdateProduct (Name p) (Price p) id)).2
            = inr (mkReply [] (Z.of_nat (length
                     (filter (fun row => has_id id row = true) (table db))))))
      as HE.
    { unfold Exec, execute. cbn [fault]. by rewrite Hf. }
    rewrite HR. cbn [fst snd table log].
    split; [reflexivity|]. split; [done|]. split; [done|]. split; [done|].
    intros Ha. rewrite HE, absent_filter by done. split; [done|].
    apply update_absent_rows.
    eapply Forall_impl; [exact Ha|]. intros row Hrow. by apply Z.eqb_neq.
  - intros Hf.
    assert (App.deleteProduct db r
            = (mkDB (filter (fun row => has_id id row = false) (table db))
                 (products_id_seq db) (fault db) (DeleteProduct id :: log db),
               respondWithJSON 200 (PMap {["result" := "success"]}))) as HR.
    { unfold App.deleteProduct. rewrite HA.
      unfold deleteProduct, Exec, execute. cbn [ID fault]. by rewrite Hf. }
    assert ((Exec db (DeleteProduct id)).2
            = inr (mkReply [] (Z.of_nat (length
                     (filter (fun row => has_id id row = true) (table db))))))
      as HE.
    { unfold Exec, execute. cbn [fault]. by rewrite Hf. }
    rewrite HR. cbn [fst snd table log].
    split; [unfold respondWithJSON; by rewrite Marshal_singleton|].
    split; [done|]. split; [done|]. split; [done|].
    intros Ha. rewrite HE, absent_filter by done. split; [done|].
    apply delete_absent_rows.
    eapply Forall_impl; [exact Ha|]. intros row Hrow. by apply Z.eqb_neq.
Qed.

Lemma existsb_filter id (t : list row) :
  existsb (has_id id) t = false ->
  filter (fun r => has_id id r = true) t = [].
Proof.
  induction t as [|r t IH]; [done|].
  simpl. intros [Hr Ht]%orb_false_iff.
  rewrite filter_cons_False by (by rewrite Hr). auto.
Qed.

Lemma createProduct_inv p db db' p' :
  createProduct p db = (db', p', None) ->
  fault db (InsertProduct (Name p) (Price p)) = None /\
  existsb (has_id (products_id_seq db)) (table db) = false /\
  p' = mkProduct (products_id_seq db) (Name p) (Price p) /\
  db' = mkDB (table db ++ [(products_id_seq db, Name p, numeric_10_2 (Price p))])
             (products_id_seq db + 1) (fault db)
             (InsertProduct (Name p) (Price p) :: log db).
Proof.
  unfold createProduct, QueryRow, Query, execute. cbn [fault].
  destruct (fault db _); [done|]. cbn [run table products_id_seq fault log].
  destruct (existsb _ _); [done|]. cbn [result_rows].
  by intros [= <- <-].
Qed.

(** On a database that does not refuse the insert and whose sequence is
    ahead of the ids in the table, [createProduct] succeeds. *)
Lemma createProduct_succeeds p db :
  fault db (InsertProduct (Name p) (Price p)) = None ->
  Forall (fun r => row_id r < products_id_seq db) (table db) ->
  exists db', createProduct p db
              = (db', mkProduct (products_id_seq db) (Name p) (Price p), None).
Proof.
  intros Hf Hseq.
  unfold createProduct, QueryRow, Query, execute. cbn [fault]. rewrite Hf.
  cbn [run table products_id_seq fault log].
  assert (existsb (has_id (products_id_seq db)) (table db) = false) as ->.
  { induction Hseq as [|r t Hr _ IH]; [done|].
    simpl. rewrite IH, orb_false_r. unfold has_id. apply Z.eqb_neq. lia. }
  cbn [result_rows]. eauto.
Qed.

Lemma createProduct_log p db :
  log (createProduct p db).1.1 = InsertProduct (Name p) (Price p) :: log db.
Proof.
  unfold createProduct, QueryRow, Query.
  pose proof (execute_log db (InsertProduct (Name p) (Price p))) as Hl.
  destruct (execute db _) as [db' [e|[rows n]]]; [done|].
  cbn [result_rows]. by destruct rows as [|[[i name] price] rows].
Qed.

(** C6.  CreateProduct: a body that does not decode gives 400 with
    [Invalid request payload], and nothing is sent to the database.  A body
    that decodes has the INSERT sent with its name and price: an error [e]
    of the insert gives 500 (with [e.Error()]); otherwise the response is
    201 with the JSON header, and its body is the product as submitted
    with the id that the sequence of the table gave to the new row. *)
Theorem createProduct_responses db r :
  (Decode (Body r) product_zero = None ->
     App.createProduct db r
     = (db, error_response 400 "Invalid request payload")) /\
  (forall p, Decode (Body r) product_zero = Some p ->
     log (App.createProduct db r).1
     = InsertProduct (Name p) (Price p) :: log db /\
     (forall e, (createProduct p db).2 = Some e ->
        (App.createProduct db r).2 = error_response 500 (Error e)) /\
     (forall db' p', createProduct p db = (db', p', None) ->
        App.createProduct db r
        = (db',
           mkResponse 201 json_header
             (match FormatFloat (Price p) with
              | Some lit =>
                  Some (JObject
                          [("id", JNumber (strconv.Itoa (products_id_seq db)));
                           ("name", JString (Name p));
                           ("price", JNumber lit)])
              | None => None
              end)) /\
        p' = mkProduct (products_id_seq db) (Name p) (Price p) /\
        (ID p', Name p, numeric_10_2 (Price p)) ∈ table db')).
Proof.
  split.
  - intros HD. unfold App.createProduct. rewrite HD.
    by rewrite respondWithError_eq.
  - intros p HD. split; [|split].
    + pose proof (createProduct_log p db) as Hl.
      unfold App.createProduct. rewrite HD.
      by destruct (createProduct p db) as [[db' p'] [e|]].
    + intros e He. unfold App.createProduct. rewrite HD.
      destruct (createProduct p db) as [[db' p'] oe]. cbn [snd] in He. subst oe.
      cbn [snd]. by rewrite respondWithError_eq.
    + intros db' p' Hc.
      assert (App.createProduct db r = (db', respondWithJSON 201 (PProduct p'))) as HR.
      { unfold App.createProduct. by rewrite HD, Hc. }
      destruct (createProduct_inv _ _ _ _ Hc) as (_ & _ & -> & ->).
      split; [by rewrite HR|]. split; [done|].
      cbn [table ID]. apply elem_of_app. right. by apply list_elem_of_singleton.
Qed.

(** C7.  UpdateProduct with an id and a body that parse: the statement is
    sent with the id of the path, whatever id the body holds, and it is
    the only statement sent; when it succeeds the response is 200 with the
    path id and the name and price as submitted. *)
Theorem updateProduct_path_id db r id p :
  strconv.Atoi (default "" (Vars r !! "id")) = (id, None) ->
  Decode (Body r) product_zero = Some p ->
  log (App.updateProduct db r).1
    = UpdateProduct (Name p) (Price p) id :: log db /\
  ((updateProduct (mkProduct id (Name p) (Price p)) db).2 = None ->
     (App.updateProduct db r).2
     = respondWithJSON 200 (PProduct (mkProduct id (Name p) (Price p))) /\
     (forall lit, FormatFloat (Price p) = Some lit ->
        (App.updateProduct db r).2
        = mkResponse 200 json_header
            (Some (JObject [("id", JNumber (strconv.Itoa id));
                            ("name", JString (Name p));
                            ("price", JNumber lit)])))).
Proof.
  intros HA HD. unfold App.updateProduct. rewrite HA, HD.
  unfold updateProduct, Exec. cbn [ID Name Price].
  pose proof (execute_log db (UpdateProduct (Name p) (Price p) id)) as Hl.
  destruct (execute db _) as [db' [e|rp]]; cbn [fst snd] in *; split; try done.
  intros _. split; [done|].
  intros lit Hlit. unfold respondWithJSON.
  cbn [Marshal]. unfold Marshal_product.
  cbn [ID Name Price]. by rewrite Hlit.
Qed.

(** C10.  UpdateProduct on a body that does not decode answers 400 with
    the message [Invalid resquest payload]; CreateProduct on the same body
    answers 400 with [Invalid request payload], a different string. *)
Theorem updateProduct_payload_message db r id :
  strconv.Atoi (default "" (Vars r !! "id")) = (id, None) ->
  Decode (Body r) product_zero = None ->
  App.updateProduct db r = (db, error_response 400 "Invalid resquest payload") /\
  App.createProduct db r = (db, error_response 400 "Invalid request payload") /\
  "Invalid resquest payload" <> "Invalid request payload".
Proof.
  intros HA HD. unfold App.updateProduct, App.createProduct.
  rewrite HA, HD. by rewrite !respondWithError_eq.
Qed.

(** C8.  A range query that no row matches, as on an empty table, gives
    an empty slice that is not nil and no error, and the ListProducts
    handler answers 200 with the JSON array [[]], which is not [null]. *)
Theorem getProducts_no_rows db :
  (forall start count, 0 <= start -> 0 <= count ->
     fault db (SelectProducts count start) = None ->
     range db start count = [] ->
     (getProducts db start count).2 = (Some [], None)) /\
  (forall r,
     let count := clamp_count (strconv.Atoi (FormValue r "count")).1 in
     let start := clamp_start (strconv.Atoi (FormValue r "start")).1 in
     fault db (SelectProducts count start) = None ->
     range db start count = [] ->
     (App.getProducts db r).2
     = mkResponse 200 json_header (Some (JArray []))) /\
  (table db = [] -> forall start count, range db start count = []) /\
  JArray [] <> JNull.
Proof.
  assert (forall start count, 0 <= start -> 0 <= count ->
            fault db (SelectProducts count start) = None ->
            range db start count = [] ->
            (getProducts db start count).2 = (Some [], None)) as Hmodel.
  { intros start count Hs Hc Hf Hr.
    unfold getProducts, Query, execute. cbn [fault]. rewrite Hf.
    cbn [run table products_id_seq fault log].
    destruct (Z.ltb_spec start 0); [lia|].
    destruct (Z.ltb_spec count 0); [lia|].
    cbn [result_rows snd]. unfold range in Hr. by rewrite Hr. }
  repeat split; [done| | |done].
  - intros r count start Hf Hr. unfold App.getProducts.
    destruct (strconv.Atoi (FormValue r "count")) as [c ?].
    destruct (strconv.Atoi (FormValue r "start")) as [s0 ?].
    cbn [fst] in *. rewrite clamp_count_eq, clamp_start_eq.
    fold count start.
    assert (0 <= start) by (subst start; unfold clamp_start; destruct (decide _); lia).
    assert (0 <= count) by (subst count; unfold clamp_count; destruct (decide _); lia).
    pose proof (Hmodel start count ltac:(done) ltac:(done) Hf Hr) as Hm.
    destruct (getProducts db start count) as [db' [ps oe]].
    cbn [snd] in Hm. by injection Hm as -> ->.
  - intros Ht start count. unfold range. rewrite Ht.
    by rewrite drop_nil, take_nil.
Qed.

(** C1.  A price that the column keeps as it is, with any name: when
    [createProduct] succeeds, [getProduct] with the id it returned (sent
    as the next statement, and not refused) finds a product with that id
    and with the name and the price submitted. *)
Theorem create_then_fetch db name price id0 db1 p1 p :
  kept_by_column price ->
  createProduct (mkProduct id0 name price) db = (db1, p1, None) ->
  ID p = ID p1 ->
  fault db1 (SelectProduct (ID p1)) = None ->
  getProduct p db1
  = (logged db1 (SelectProduct (ID p1)), mkProduct (ID p1) name price, None).
Proof.
  unfold kept_by_column. intros Hv Hc Hid Hf.
  destruct (createProduct_inv _ _ _ _ Hc) as (_ & Hfresh & -> & ->).
  cbn [ID Name Price] in *.
  unfold getProduct, QueryRow, Query. rewrite Hid.
  rewrite execute_select by done. cbn [result_rows table].
  rewrite filter_app, (existsb_filter _ _ Hfresh).
  rewrite filter_cons_True by (unfold has_id, row_id; cbn; apply Z.eqb_refl).
  cbn [app]. by rewrite Hv.
Qed.

(** *** Decoding an object with a member left out *)

Lemma EqualFold_length s : forall t,
  EqualFold s t = true -> String.length s = String.length t.
Proof.
  induction s as [|a s IH]; intros [|b t]; simpl; try done.
  intros [_ Hs]%andb_true_iff. f_equal. by apply IH.
Qed.

Lemma EqualFold_tags key t1 t2 :
  String.length t1 <> String.length t2 ->
  EqualFold key t1 = true -> EqualFold key t2 = false.
Proof.
  intros Hne H1. destruct (EqualFold key t2) eqn:H2; [|done].
  apply EqualFold_length in H1, H2. congruence.
Qed.

Lemma setField_price p key v p1 :
  EqualFold key "price" = true -> setField p key v = Some p1 ->
  ID p1 = ID p /\ Name p1 = Name p.
Proof.
  intros Hk. unfold setField.
  rewrite (EqualFold_tags key "price" "id"), (EqualFold_tags key "price" "name"), Hk
    by (done || (simpl; lia)).
  destruct v; try discriminate; try (by intros [= <-]).
  destruct (ParseFloat lit); [|done]. by intros [= <-].
Qed.

Lemma setField_name p key v p1 :
  EqualFold key "name" = true -> setField p key v = Some p1 ->
  ID p1 = ID p /\ Price p1 = Price p.
Proof.
  intros Hk. unfold setField.
  rewrite (EqualFold_tags key "name" "id"), Hk by (done || (simpl; lia)).
  destruct v; try discriminate; by intros [= <-].
Qed.

Lemma setField_keep_price p q key v p1 :
  EqualFold key "price" = false -> ID p = ID q -> Name p = Name q ->
  setField p key v = Some p1 ->
  setField q key v = Some (mkProduct (ID p1) (Name p1) (Price q)).
Proof.
  intros Hk Hi Hn. unfold setField. rewrite Hk.
  destruct p as [i n f], q as [i' n' f']. cbn [ID Name Price] in *. subst i' n'.
  destruct (EqualFold key "id"); [|destruct (EqualFold key "name")];
    destruct v; try discriminate; try (by intros [= <-]).
  destruct (strconv.ParseInt lit 64) as [z [e|]]; [done|]. by intros [= <-].
Qed.

Lemma setField_keep_name p q key v p1 :
  EqualFold key "name" = false -> ID p = ID q -> Price p = Price q ->
  setField p key v = Some p1 ->
  setField q key v = Some (mkProduct (ID p1) (Name q) (Price p1)).
Proof.
  intros Hk Hi Hn. unfold setField. rewrite Hk.
  destruct p as [i n f], q as [i' n' f']. cbn [ID Name Price] in *. subst i' f'.
  destruct (EqualFold key "id"); [|destruct (EqualFold key "price")];
    destruct v; try discriminate; try (by intros [= <-]).
  - destruct (strconv.ParseInt lit 64) as [z [e|]]; [done|]. by intros [= <-].
  - destruct (ParseFloat lit); [|done]. by intros [= <-].
Qed.

Lemma setFields_without_price members : forall p q p',
  ID p = ID q -> Name p = Name q ->
  setFields p members = Some p' ->
  setFields q (without "price" members)
  = Some (mkProduct (ID p') (Name p') (Price q)).
Proof.
  unfold without.
  induction members as [|[key v] members IH]; intros p q p' Hi Hn.
  - intros [= <-]. destruct q. cbn in *. by subst.
  - cbn [setFields]. destruct (setField p key v) as [p1|] eqn:H1; [|done].
    intros Hrest. destruct (EqualFold key "price") eqn:Hk.
    + rewrite filter_cons_False by (cbn; congruence).
      destruct (setField_price _ _ _ _ Hk H1) as [Hi1 Hn1].
      apply (IH p1); congruence.
    + rewrite filter_cons_True by done. cbn [setFields].
      rewrite (setField_keep_price _ _ _ _ _ Hk Hi Hn H1).
      by rewrite (IH p1 _ p').
Qed.

Lemma setFields_without_name members : forall p q p',
  ID p = ID q -> Price p = Price q ->
  setFields p members = Some p' ->
  setFields q (without "name" members)
  = Some (mkProduct (ID p') (Name q) (Price p')).
Proof.
  unfold without.
  induction members as [|[key v] members IH]; intros p q p' Hi Hn.
  - intros [= <-]. destruct q. cbn in *. by subst.
  - cbn [setFields]. destruct (setField p key v) as [p1|] eqn:H1; [|done].
    intros Hrest. destruct (EqualFold key "name") eqn:Hk.
    + rewrite filter_cons_False by (cbn; congruence).
      destruct (setField_name _ _ _ _ Hk H1) as [Hi1 Hn1].
      apply (IH p1); congruence.
    + rewrite filter_cons_True by done. cbn [setFields].
      rewrite (setField_keep_name _ _ _ _ _ Hk Hi Hn H1).
      by rewrite (IH p1 _ p').
Qed.

Lemma decoded_body_create db r q :
  Decode (Body r) product_zero = Some q ->
  log (App.createProduct db r).1 = InsertProduct (Name q) (Price q) :: log db /\
  ((createProduct q db).2 = None -> Code (App.createProduct db r).2 = 201) /\
  (forall e, (createProduct q db).2 = Some e ->
     (App.createProduct db r).2 = error_response 500 (Error e)).
Proof.
  intros Hq. pose proof (createProduct_log q db) as Hl.
  unfold App.createProduct. rewrite Hq.
  destruct (createProduct q db) as [[db' p'] [e|]]; cbn [fst snd] in *.
  - split; [done|]. split; [done|]. intros e' [= <-].
    by rewrite respondWithError_eq.
  - split; [done|]. split; [done|]. done.
Qed.

Lemma decoded_body_update db r q id :
  strconv.Atoi (default "" (Vars r !! "id")) = (id, None) ->
  Decode (Body r) product_zero = Some q ->
  log (App.updateProduct db r).1
  = UpdateProduct (Name q) (Price q) id :: log db /\
  ((updateProduct (mkProduct id (Name q) (Price q)) db).2 = None ->
     Code (App.updateProduct db r).2 = 200) /\
  (forall e, (updateProduct (mkProduct id (Name q) (Price q)) db).2 = Some e ->
     (App.updateProduct db r).2 = error_response 500 (Error e)).
Proof.
  intros HA Hq. unfold App.updateProduct. rewrite HA, Hq.
  unfold updateProduct, Exec. cbn [ID Name Price].
  pose proof (execute_log db (UpdateProduct (Name q) (Price q) id)) as Hl.
  destruct (execute db _) as [db' [e|rp]]; cbn [fst snd] in *.
  - split; [done|]. split; [done|]. intros e' [= <-].
    by rewrite respondWithError_eq.
  - split; [done|]. split; [done|]. done.
Qed.

(** C9 (amended).  A CreateProduct or UpdateProduct request whose JSON
    object omits [price] (or [name]) is accepted as it is: taking the
    [price] (the [name]) members out of an object that decodes gives an
    object that decodes too, to the same product with price 0 (with the
    empty name), and the handler sends its statement to the storage layer
    with that value.  CreateProduct sends the INSERT and answers 201 when
    it succeeds, 500 when it fails; UpdateProduct, once the id of the path
    has parsed, sends the UPDATE and answers 200 when it succeeds, 500
    when it fails.  The omission is never answered with 400. *)
Theorem omitted_field_accepted members p :
  Decode (Some (JObject members)) product_zero = Some p ->
  let no_price := mkProduct (ID p) (Name p) float64_zero in
  let no_name := mkProduct (ID p) "" (Price p) in
  Decode (Some (JObject (without "price" members))) product_zero
    = Some no_price /\
  Decode (Some (JObject (without "name" members))) product_zero
    = Some no_name /\
  (forall db r q,
     (Body r = Some (JObject (without "price" members)) /\ q = no_price) \/
     (Body r = Some (JObject (without "name" members)) /\ q = no_name) ->
     log (App.createProduct db r).1
     = InsertProduct (Name q) (Price q) :: log db /\
     ((createProduct q db).2 = None ->
        Code (App.createProduct db r).2 = 201) /\
     (forall e, (createProduct q db).2 = Some e ->
        (App.createProduct db r).2 = error_response 500 (Error e)) /\
     (forall id, strconv.Atoi (default "" (Vars r !! "id")) = (id, None) ->
        log (App.updateProduct db r).1
        = UpdateProduct (Name q) (Price q) id :: log db /\
        ((updateProduct (mkProduct id (Name q) (Price q)) db).2 = None ->
           Code (App.updateProduct db r).2 = 200) /\
        (forall e,
           (updateProduct (mkProduct id (Name q) (Price q)) db).2 = Some e ->
           (App.updateProduct db r).2 = error_response 500 (Error e)))).
Proof.
  intros HD no_price no_name. cbn [Decode] in *.
  assert (setFields product_zero (without "price" members) = Some no_price)
    as Hprice by (by apply (setFields_without_price members product_zero)).
  assert (setFields product_zero (without "name" members) = Some no_name)
    as Hname by (by apply (setFields_without_name members product_zero)).
  split; [done|]. split; [done|].
  intros db r q Hbody.
  assert (Decode (Body r) product_zero = Some q) as Hq.
  { destruct Hbody as [[-> ->]|[-> ->]]; done. }
  destruct (decoded_body_create db r q Hq) as (Hlog & Hok & Herr).
  split; [done|]. split; [done|]. split; [done|].
  intros id HA. by apply decoded_body_update.
Qed.

End Claims.

(** ** The program at work *)

Section Scenarios.
#[local] Existing Instance FixedPoint.platform.
Import Sample.

Example Atoi_small : strconv.Atoi "42" = (42, None).
Proof. reflexivity. Qed.

Example Atoi_empty : strconv.Atoi "" = (0, Some strconv.ErrSyntax).
Proof. reflexivity. Qed.

Example Atoi_neg : strconv.Atoi "-7" = (-7, None).
Proof. reflexivity. Qed.

Example Atoi_max : strconv.Atoi "9223372036854775807" = (9223372036854775807, None).
Proof. vm_compute. reflexivity. Qed.

Example Atoi_over :
  strconv.Atoi "9223372036854775808" = (9223372036854775807, Some strconv.ErrRange).
Proof. vm_compute. reflexivity. Qed.

Example Atoi_min :
  strconv.Atoi "-9223372036854775808" = (-9223372036854775808, None).
Proof. vm_compute. reflexivity. Qed.

Example Atoi_huge_junk :
  strconv.Atoi "99999999999999999999999x" = (9223372036854775807, Some strconv.ErrRange).
Proof. vm_compute. reflexivity. Qed.

Example Itoa_ex : strconv.Itoa (-120) = "-120" /\ strconv.Itoa 0 = "0".
Proof. vm_compute. auto. Qed.

Example Atoi_missing_parameter : strconv.Atoi "" = (0, Some strconv.ErrSyntax).
Proof. reflexivity. Qed.

(** create [{"name":"test product","price":11.22}]: 201, body
    [{"id":1,"name":"test product","price":11.22}] *)
Example scenario_create :
  ServeHTTP empty_db (request "POST" "/product" (Some test_product))
  = Some (created_db,
          mkResponse 201 json_header
            (Some (JObject [("id", JNumber "1");
                            ("name", JString "test product");
                            ("price", JNumber "11.22")]))).
Proof. reflexivity. Qed.

(** [GET /product/11] on an empty table: 404, body
    [{"error":"Product not found"}] *)
Example scenario_not_found :
  snd <$> ServeHTTP empty_db (request "GET" "/product/11" None)
  = Some (error_response 404 "Product not found").
Proof. reflexivity. Qed.

(** [GET /products] on an empty table: 200, body [[]] *)
Example scenario_empty_list :
  snd <$> ServeHTTP empty_db (request "GET" "/products" None)
  = Some (mkResponse 200 json_header (Some (JArray []))).
Proof. reflexivity. Qed.

(** The column rounds: 11.225 is kept as 11.23, and the response to the
    update still shows 11.225. *)
Example scenario_update_rounds :
  let body := JObject [("name", JString "test product"); ("price", JNumber "11.225")] in
  (fun out => (table out.1, Written out.2))
    <$> ServeHTTP created_db (request "PUT" "/product/1" (Some body))
  = Some ([(1, "test product", 112300)],
          Some (JObject [("id", JNumber "1");
                         ("name", JString "test product");
                         ("price", JNumber "11.225")])).
Proof. reflexivity. Qed.

(** A non-numeric id matches no route. *)
Example scenario_no_route :
  ServeHTTP empty_db (request "GET" "/product/abc" None) = None.
Proof. reflexivity. Qed.

End Scenarios.

(** ** The claims on the sample data *)

Section Witnesses.
#[local] Existing Instance FixedPoint.platform.
Import Sample.

(** C1 on the test product: created in the empty table, it is found under
    the id 1 with its name and price. *)
Lemma create_then_fetch_witness :
  @kept_by_column FixedPoint.platform 112200 /\
  createProduct (item 0 "test product" 112200) empty_db
  = (created_db, item 1 "test product" 112200, None) /\
  getProduct (item 1 "" 0) created_db
  = (logged created_db (SelectProduct 1), item 1 "test product" 112200, None).
Proof.
  split; [reflexivity|]. split; [reflexivity|].
  apply (create_then_fetch empty_db "test product" 112200 0 created_db
           (item 1 "test product" 112200) (item 1 "" 0));
    reflexivity.
Defined.

(** C3 on [GET /product/11]: 404 on the empty table, 500 with the message
    of the driver when the connection is gone. *)
Lemma getProduct_errors_witness :
  strconv.Atoi (default "" (Vars (routed "GET" "/product/11" "11" None) !! "id"))
  = (11, None) /\
  (App.getProduct empty_db (routed "GET" "/product/11" "11" None)).2
  = error_response 404 "Product not found" /\
  (App.getProduct down_db (routed "GET" "/product/11" "11" None)).2
  = error_response 500 "driver: bad connection".
Proof.
  split; [reflexivity|]. split.
  - destruct (getProduct_errors empty_db (routed "GET" "/product/11" "11" None) 11
                eq_refl) as (Hno & H404 & _ & _).
    apply H404, Hno; [reflexivity|constructor].
  - destruct (getProduct_errors down_db (routed "GET" "/product/11" "11" None) 11
                eq_refl) as (_ & _ & _ & H500).
    apply H500. reflexivity.
Defined.

(** C4 on the table of two products: [PUT /product/7] and
    [DELETE /product/7] answer 200 although no row has the id 7, and the
    table is as before. *)
Lemma update_delete_ignore_rows_witness :
  strconv.Atoi (default "" (Vars (routed "PUT" "/product/7" "7" (Some test_product)) !! "id"))
  = (7, None) /\
  absent 7 Fixture.two_db /\
  (App.updateProduct Fixture.two_db
     (routed "PUT" "/product/7" "7" (Some test_product))).2
  = mkResponse 200 json_header
      (Some (JObject [("id", JNumber "7");
                      ("name", JString "test product");
                      ("price", JNumber "11.22")])) /\
  table (App.updateProduct Fixture.two_db
           (routed "PUT" "/product/7" "7" (Some test_product))).1
  = table Fixture.two_db /\
  (App.deleteProduct Fixture.two_db
     (routed "PUT" "/product/7" "7" (Some test_product))).2
  = mkResponse 200 json_header (Some (JObject [("result", JString "success")])) /\
  table (App.deleteProduct Fixture.two_db
           (routed "PUT" "/product/7" "7" (Some test_product))).1
  = table Fixture.two_db.
Proof.
  assert (absent 7 Fixture.two_db) as Ha by (repeat constructor; discriminate).
  destruct (update_delete_ignore_rows Fixture.two_db
              (routed "PUT" "/product/7" "7" (Some test_product)) 7 eq_refl)
    as [Hupdate Hdelete].
  destruct (Hupdate (item 0 "test product" 112200) eq_refl eq_refl)
    as (Hu & _ & _ & _ & Hunone).
  destruct (Hdelete eq_refl) as (Hd & _ & _ & _ & Hdnone).
  split; [reflexivity|]. split; [exact Ha|].
  split; [exact Hu|]. split; [exact (proj2 (Hunone Ha))|].
  split; [exact Hd|exact (proj2 (Hdnone Ha))].
Defined.

(** C5 on [GET /product/12]: the segment parses. *)
Lemma routed_id_Atoi_witness :
  Match initializeRoutes (request "GET" "/product/12" None)
  = Some (a_getProduct, {["id" := "12"]}) /\
  by_id a_getProduct /\
  exists seg,
    ({["id" := "12"]} : gmap string string) !! "id" = Some seg /\
    strconv.Atoi seg = (12, None).
Proof.
  split; [reflexivity|]. split; [by left|].
  destruct (routed_id_Atoi (request "GET" "/product/12" None) a_getProduct
              {["id" := "12"]} eq_refl (or_introl eq_refl))
    as (seg & _ & Hseg & _ & HA & _).
  exists seg. split; [exact Hseg|].
  injection Hseg as <-. exact HA.
Defined.

(** C5 as stated fails on [GET /product/9223372036854775808]: the route
    matches, the segment is all digits, [Atoi] gives a range error and
    the handler answers 400 with [Invalid product ID]. *)
Lemma routed_id_Atoi_fails :
  Match initializeRoutes (request "GET" "/product/9223372036854775808" None)
  = Some (a_getProduct, {["id" := "9223372036854775808"]}) /\
  match_digits "9223372036854775808" = true /\
  strconv.Atoi "9223372036854775808"
  = (9223372036854775807, Some strconv.ErrRange) /\
  ServeHTTP empty_db (request "GET" "/product/9223372036854775808" None)
  = Some (empty_db, error_response 400 "Invalid product ID").
Proof. repeat split; reflexivity. Qed.

(** C6 on the test product. *)
Lemma createProduct_responses_witness :
  Decode (Body (request "POST" "/product" (Some test_product))) product_zero
  = Some (item 0 "test product" 112200) /\
  App.createProduct empty_db (request "POST" "/product" (Some test_product))
  = (created_db,
     mkResponse 201 json_header
       (Some (JObject [("id", JNumber "1");
                       ("name", JString "test product");
                       ("price", JNumber "11.22")]))) /\
  App.createProduct empty_db (request "POST" "/product" None)
  = (empty_db, error_response 400 "Invalid request payload").
Proof.
  destruct (createProduct_responses empty_db
              (request "POST" "/product" (Some test_product))) as [_ Hok].
  destruct (createProduct_responses empty_db (request "POST" "/product" None))
    as [Hbad _].
  destruct (Hok (item 0 "test product" 112200) eq_refl) as (_ & _ & Hcreated).
  split; [reflexivity|]. split.
  - apply (Hcreated created_db (item 1 "test product" 112200) eq_refl).
  - apply Hbad. reflexivity.
Defined.

(** C7 on a body that says id 99, sent to [/product/7]. *)
Lemma updateProduct_path_id_witness :
  strconv.Atoi (default "" (Vars (routed "PUT" "/product/7" "7" (Some updated_product)) !! "id"))
  = (7, None) /\
  Decode (Body (routed "PUT" "/product/7" "7" (Some updated_product))) product_zero
  = Some (item 99 "test product - updated name" 112200) /\
  (App.updateProduct empty_db (routed "PUT" "/product/7" "7" (Some updated_product))).2
  = mkResponse 200 json_header
      (Some (JObject [("id", JNumber "7");
                      ("name", JString "test product - updated name");
                      ("price", JNumber "11.22")])).
Proof.
  split; [reflexivity|]. split; [reflexivity|].
  destruct (updateProduct_path_id empty_db
              (routed "PUT" "/product/7" "7" (Some updated_product)) 7
              (item 99 "test product - updated name" 112200) eq_refl eq_refl)
    as [_ Hok].
  destruct (Hok eq_refl) as [_ Hbody]. apply (Hbody "11.22"). reflexivity.
Defined.

(** C8 on the empty table. *)
Lemma getProducts_no_rows_witness :
  (getProducts empty_db 0 10).2 = (Some [], None) /\
  (App.getProducts empty_db (request "GET" "/products" None)).2
  = mkResponse 200 json_header (Some (JArray [])).
Proof.
  destruct (getProducts_no_rows empty_db) as (Hmodel & Hhandler & _ & _).
  split.
  - apply Hmodel; (lia || reflexivity).
  - apply Hhandler; reflexivity.
Defined.

(** C9 as stated fails on [POST /product] with [{"name":"widget"}]: the
    handler creates the product with price 0 and answers 201. *)
Lemma create_without_price :
  ServeHTTP empty_db (request "POST" "/product" (Some no_price))
  = Some (@mkDB FixedPoint.platform [(1, "widget", 0)] 2 (fun _ => None)
            [@InsertProduct FixedPoint.platform "widget" 0],
          mkResponse 201 json_header
            (Some (JObject [("id", JNumber "1");
                            ("name", JString "widget");
                            ("price", JNumber "0")]))).
Proof. reflexivity. Qed.

(** C9 (amended) on the test product with its price left out: decoded
    with price 0, and the INSERT is sent with it and answered 201. *)
Lemma omitted_field_accepted_witness :
  Decode (Some test_product) product_zero
  = Some (item 0 "test product" 112200) /\
  Decode (Some (JObject (without "price" [("name", JString "test product");
                                         ("price", JNumber "11.22")])))
    product_zero
  = Some (item 0 "test product" 0) /\
  log (App.createProduct empty_db
         (request "POST" "/product"
            (Some (JObject (without "price"
                              [("name", JString "test product");
                               ("price", JNumber "11.22")]))))).1
  = [InsertProduct "test product" 0] /\
  Code (App.createProduct empty_db
          (request "POST" "/product"
             (Some (JObject (without "price"
                               [("name", JString "test product");
                                ("price", JNumber "11.22")]))))).2
  = 201.
Proof.
  destruct (omitted_field_accepted
              [("name", JString "test product"); ("price", JNumber "11.22")]
              (item 0 "test product" 112200) eq_refl)
    as (Hdecode & _ & Hhandler).
  destruct (Hhandler empty_db
              (request "POST" "/product"
                 (Some (JObject (without "price"
                                   [("name", JString "test product");
                                    ("price", JNumber "11.22")]))))
              (item 0 "test product" 0) (or_introl (conj eq_refl eq_refl)))
    as (Hlog & Hok & _).
  split; [reflexivity|]. split; [exact Hdecode|].
  split; [exact Hlog|]. apply Hok. reflexivity.
Defined.

(** C10 on a body that is no JSON. *)
Lemma updateProduct_payload_message_witness :
  strconv.Atoi (default "" (Vars (routed "PUT" "/product/7" "7" None) !! "id"))
  = (7, None) /\
  Decode (Body (routed "PUT" "/product/7" "7" None)) product_zero = None /\
  App.updateProduct empty_db (routed "PUT" "/product/7" "7" None)
  = (empty_db, error_response 400 "Invalid resquest payload").
Proof.
  split; [reflexivity|]. split; [reflexivity|].
  apply (updateProduct_payload_message empty_db (routed "PUT" "/product/7" "7" None) 7);
    reflexivity.
Defined.

End Witnesses.

(** * More of the code *)

(** ** What a statement does to the database *)

Section Statements.
Context `{Platform}.

Lemma execute_fault db s : fault (execute db s).1 = fault db.
Proof.
  unfold execute. cbn [fault]. destruct (fault db s); [done|].
  destruct s; cbn [run]; try done.
  - by destruct (existsb _ _).
  - destruct (_ <? 0); [done|]. by destruct (_ <? 0).
Qed.

Lemma execute_table db s :
  table (execute db s).1 =
  match fault db s, s with
  | None, UpdateProduct name price id =>
      (fun r => if has_id id r then (id, name, numeric_10_2 price) else r) <$> table db
  | None, DeleteProduct id => filter (fun r => has_id id r = false) (table db)
  | None, InsertProduct name price =>
      if existsb (has_id (products_id_seq db)) (table db) then table db
      else (table db ++ [(products_id_seq db, name, numeric_10_2 price)])%list
  | _, _ => table db
  end.
Proof.
  unfold execute. cbn [fault]. destruct (fault db s); [by destruct s|].
  destruct s; cbn [run table products_id_seq]; try done.
  - by destruct (existsb _ _).
  - destruct (_ <? 0); [done|]. by destruct (_ <? 0).
Qed.

Lemma execute_seq db s :
  products_id_seq (execute db s).1 =
  match fault db s, s with
  | None, InsertProduct _ _ => products_id_seq db + 1
  | _, _ => products_id_seq db
  end.
Proof.
  unfold execute. cbn [fault]. destruct (fault db s); [by destruct s|].
  destruct s; cbn [run table products_id_seq]; try done.
  - by destruct (existsb _ _).
  - destruct (_ <? 0); [done|]. by destruct (_ <? 0).
Qed.

Lemma getProduct_db p db :
  (getProduct p db).1.1 = (execute db (SelectProduct (ID p))).1.
Proof.
  unfold getProduct, QueryRow, Query.
  destruct (execute db _) as [db' [e|[rows n]]]; [done|].
  cbn [result_rows]. by destruct rows as [|[[i name] price] rows].
Qed.

Lemma updateProduct_db p db :
  (updateProduct p db).1.1
  = (execute db (UpdateProduct (Name p) (Price p) (ID p))).1.
Proof. unfold updateProduct, Exec. by destruct (execute db _) as [db' [e|rp]]. Qed.

Lemma deleteProduct_db p db :
  (deleteProduct p db).1.1 = (execute db (DeleteProduct (ID p))).1.
Proof. unfold deleteProduct, Exec. by destruct (execute db _) as [db' [e|rp]]. Qed.

Lemma createProduct_db p db :
  (createProduct p db).1.1 = (execute db (InsertProduct (Name p) (Price p))).1.
Proof.
  unfold createProduct, QueryRow, Query.
  destruct (execute db _) as [db' [e|[rows n]]]; [done|].
  cbn [result_rows]. by destruct rows as [|[[i name] price] rows].
Qed.

Lemma getProducts_db db start count :
  (getProducts db start count).1 = (execute db (SelectProducts count start)).1.
Proof. unfold getProducts, Query. by destruct (execute db _) as [db' [e|rp]]. Qed.

Lemma deleteProduct_inv p db db1 p1 :
  deleteProduct p db = (db1, p1, None) ->
  fault db (DeleteProduct (ID p)) = None /\ p1 = p /\
  table db1 = filter (fun r => has_id (ID p) r = false) (table db) /\
  fault db1 = fault db.
Proof.
  intros Hd.
  pose proof (deleteProduct_db p db) as Hdb. rewrite Hd in Hdb. cbn [fst] in Hdb.
  pose proof (execute_table db (DeleteProduct (ID p))) as Ht.
  pose proof (execute_fault db (DeleteProduct (ID p))) as Hf.
  rewrite <- Hdb in Ht, Hf.
  revert Hd. unfold deleteProduct, Exec, execute. cbn [fault].
  destruct (fault db (DeleteProduct (ID p))); [done|].
  cbn [run]. by intros [= _ <-].
Qed.

Lemma updateProduct_inv p db db1 p1 :
  updateProduct p db = (db1, p1, None) ->
  fault db (UpdateProduct (Name p) (Price p) (ID p)) = None /\ p1 = p /\
  table db1
  = (fun r => if has_id (ID p) r
              then (ID p, Name p, numeric_10_2 (Price p)) else r) <$> table db /\
  fault db1 = fault db.
Proof.
  intros Hu.
  pose proof (updateProduct_db p db) as Hdb. rewrite Hu in Hdb. cbn [fst] in Hdb.
  pose proof (execute_table db (UpdateProduct (Name p) (Price p) (ID p))) as Ht.
  pose proof (execute_fault db (UpdateProduct (Name p) (Price p) (ID p))) as Hf.
  rewrite <- Hdb in Ht, Hf.
  revert Hu. unfold updateProduct, Exec, execute. cbn [fault].
  destruct (fault db (UpdateProduct _ _ _)); [done|].
  cbn [run]. by intros [= _ <-].
Qed.

Lemma filter_updated id name price (t : list row) :
  filter (fun r => has_id id r = true)
    ((fun r => if has_id id r then (id, name, price) else r) <$> t)
  = (fun _ => (id, name, price)) <$> filter (fun r => has_id id r = true) t.
Proof.
  induction t as [|r t IH]; [done|]. cbn [fmap list_fmap].
  destruct (has_id id r) eqn:Hr.
  - rewrite !filter_cons_True; [|done|unfold has_id, row_id; cbn; apply Z.eqb_refl].
    cbn [fmap list_fmap]. by f_equal.
  - rewrite !filter_cons_False by congruence. done.
Qed.

Lemma stored_filter id db :
  stored id db ->
  exists r rows, filter (fun r => has_id id r = true) (table db) = r :: rows.
Proof.
  unfold stored. induction 1 as [r t Hr|r t _ IH].
  - rewrite filter_cons_True by (unfold has_id; by apply Z.eqb_eq). eauto.
  - destruct (has_id id r) eqn:Hr.
    + rewrite filter_cons_True by done. eauto.
    + rewrite filter_cons_False by congruence. done.
Qed.

(** X1.  Delete, then fetch: after [deleteProduct] has succeeded,
    [getProduct] for the same id (not refused) reports [sql.ErrNoRows] and
    leaves its receiver as it was, and the GetProduct handler answers 404
    with [Product not found]. *)
Theorem delete_then_fetch db p db1 p1 q :
  deleteProduct p db = (db1, p1, None) ->
  ID q = ID p ->
  fault db1 (SelectProduct (ID p)) = None ->
  getProduct q db1 = (logged db1 (SelectProduct (ID p)), q, Some ErrNoRows) /\
  (forall r, strconv.Atoi (default "" (Vars r !! "id")) = (ID p, None) ->
     (App.getProduct db1 r).2 = error_response 404 "Product not found").
Proof.
  intros Hd Hq Hf.
  destruct (deleteProduct_inv _ _ _ _ Hd) as (_ & _ & Ht & _).
  assert (absent (ID p) db1) as Ha.
  { unfold absent. rewrite Ht. apply Forall_forall.
    intros r [Hr _]%list_elem_of_filter. unfold has_id in Hr.
    by apply Z.eqb_neq. }
  split.
  - rewrite <- Hq in *. by apply getProduct_absent.
  - intros r HA. unfold App.getProduct. rewrite HA.
    rewrite getProduct_absent by done. cbn [snd].
    by rewrite respondWithError_eq.
Qed.

(** X2.  Update, then fetch: after [updateProduct] has succeeded on an id
    that some stored product has, [getProduct] for that id (not refused)
    finds the submitted name, and the submitted price as the column keeps
    it. *)
Theorem update_then_fetch db p db1 p1 q :
  updateProduct p db = (db1, p1, None) ->
  stored (ID p) db ->
  ID q = ID p ->
  fault db1 (SelectProduct (ID p)) = None ->
  getProduct q db1
  = (logged db1 (SelectProduct (ID p)),
     mkProduct (ID p) (Name p) (numeric_10_2 (Price p)), None).
Proof.
  intros Hu Hs Hq Hf.
  destruct (updateProduct_inv _ _ _ _ Hu) as (_ & _ & Ht & _).
  destruct (stored_filter _ _ Hs) as (r & rows & Hrows).
  unfold getProduct, QueryRow, Query. rewrite Hq.
  rewrite execute_select by done. cbn [result_rows].
  by rewrite Ht, filter_updated, Hrows.
Qed.

Lemma update_absent id v (t : list row) :
  Forall (fun r => has_id id r = false) t ->
  (fun r => if has_id id r then v else r) <$> t = t.
Proof.
  induction 1 as [|r t Hr _ IH]; [done|].
  cbn [fmap list_fmap]. rewrite Hr. by f_equal.
Qed.

Lemma delete_absent id (t : list row) :
  Forall (fun r => has_id id r = false) t ->
  filter (fun r => has_id id r = false) t = t.
Proof.
  induction 1 as [|r t Hr _ IH]; [done|].
  rewrite filter_cons_True by done. by f_equal.
Qed.

(** X3.  Update and delete of an id that no stored product has leave the
    table and the sequence exactly as they were, whether or not the
    statement is refused. *)
Theorem update_delete_absent_noop db p :
  absent (ID p) db ->
  table (updateProduct p db).1.1 = table db /\
  table (deleteProduct p db).1.1 = table db /\
  products_id_seq (updateProduct p db).1.1 = products_id_seq db /\
  products_id_seq (deleteProduct p db).1.1 = products_id_seq db.
Proof.
  intros Ha. rewrite updateProduct_db, deleteProduct_db.
  rewrite !execute_table, !execute_seq.
  assert (Forall (fun r => has_id (ID p) r = false) (table db)) as Hno.
  { eapply Forall_impl; [exact Ha|]. intros r Hr. by apply Z.eqb_neq. }
  split; [|split; [|split]].
  - destruct (fault db _); [done|]. by apply update_absent.
  - destruct (fault db _); [done|]. by apply delete_absent.
  - by destruct (fault db _).
  - by destruct (fault db _).
Qed.

(** X4.  Update and delete touch no row with another id, and create
    removes and changes no row: a row whose id is not the one in the
    statement is in the table afterwards exactly when it was before, and
    every row that was there before a create is there after it. *)
Theorem other_rows_untouched db p r :
  (row_id r <> ID p ->
   (r ∈ table (updateProduct p db).1.1 <-> r ∈ table db) /\
   (r ∈ table (deleteProduct p db).1.1 <-> r ∈ table db)) /\
  (r ∈ table db -> r ∈ table (createProduct p db).1.1).
Proof.
  rewrite updateProduct_db, deleteProduct_db, createProduct_db.
  rewrite !execute_table. split.
  - intros Hne.
    assert (has_id (ID p) r = false) as Hr by (by apply Z.eqb_neq).
    split.
    + destruct (fault db _); [done|]. rewrite list_elem_of_fmap. split.
      * intros (r0 & -> & Hin). destruct (has_id (ID p) r0) eqn:H0; [|done].
        unfold has_id, row_id in Hr. cbn in Hr. by rewrite Z.eqb_refl in Hr.
      * intros Hin. exists r. by rewrite Hr.
    + destruct (fault db _); [done|]. rewrite list_elem_of_filter. tauto.
  - intros Hin. destruct (fault db _); [done|].
    destruct (existsb _ _); [done|]. apply elem_of_app. by left.
Qed.

End Statements.

(** ** What the handlers keep *)

Section Invariants.
Context `{Platform}.

Lemma row_id_updated id name price (r : row) :
  row_id (if has_id id r then (id, name, price) else r) = row_id r.
Proof.
  destruct (has_id id r) eqn:Hr; [|done].
  unfold has_id in Hr. apply Z.eqb_eq in Hr. by rewrite Hr.
Qed.

Lemma existsb_ids id (t : list row) :
  existsb (has_id id) t = false -> id ∉ row_id <$> t.
Proof.
  induction t as [|r t IH]; simpl.
  - intros _. apply not_elem_of_nil.
  - intros [Hr Ht]%orb_false_iff. apply not_elem_of_cons. split; [|auto].
    unfold has_id in Hr. apply Z.eqb_neq in Hr. congruence.
Qed.

Lemma execute_keyed db s : keyed db -> keyed (execute db s).1.
Proof.
  unfold keyed. rewrite execute_table. intros Hk.
  destruct (fault db s); [by destruct s|].
  destruct s; try done.
  - rewrite <- list_fmap_compose.
    erewrite list_fmap_ext; [exact Hk|].
    intros i r _. apply row_id_updated.
  - eapply sublist_NoDup; [exact Hk|].
    apply fmap_sublist, sublist_filter.
  - destruct (existsb _ _) eqn:He; [done|].
    rewrite fmap_app. apply NoDup_app. split; [done|]. split.
    + intros i Hi [->|[]%elem_of_nil]%elem_of_cons.
      by apply (existsb_ids _ _ He).
    + apply NoDup_singleton.
Qed.

Lemma execute_ahead db s : ahead db -> ahead (execute db s).1.
Proof.
  unfold ahead. rewrite execute_table, execute_seq. intros Ha.
  destruct (fault db s); [by destruct s|].
  destruct s; try done.
  - apply Forall_fmap. eapply Forall_impl; [exact Ha|].
    intros r Hr. cbn. by rewrite row_id_updated.
  - apply Forall_forall. intros r [_ Hr]%list_elem_of_filter.
    by apply (proj1 (Forall_forall _ _) Ha).
  - assert (Forall (fun r => row_id r < products_id_seq db + 1) (table db)).
    { eapply Forall_impl; [exact Ha|]. cbn. intros; lia. }
    destruct (existsb _ _); [done|].
    apply Forall_app. split; [done|]. apply Forall_singleton. cbn. lia.
Qed.

(** Each handler either leaves the database as it is, or sends one
    statement, of its own kind. *)
Lemma call_db h db r :
  (call h db r).1 = db \/
  exists s, sends h s /\ (call h db r).1 = (execute db s).1.
Proof.
  destruct h; cbn [call].
  - right. unfold App.getProducts.
    destruct (strconv.Atoi (FormValue r "count")) as [count ?].
    destruct (strconv.Atoi (FormValue r "start")) as [start ?].
    rewrite clamp_count_eq, clamp_start_eq.
    exists (SelectProducts (clamp_count count) (clamp_start start)).
    split; [done|]. rewrite <- getProducts_db.
    by destruct (getProducts db _ _) as [db' [ps [e|]]].
  - unfold App.createProduct.
    destruct (Decode (Body r) product_zero) as [p|]; [right|by left].
    exists (InsertProduct (Name p) (Price p)). split; [done|].
    rewrite <- createProduct_db.
    by destruct (createProduct p db) as [[db' p'] [e|]].
  - unfold App.getProduct.
    destruct (strconv.Atoi _) as [id [e|]]; [by left|right].
    exists (SelectProduct id). split; [done|].
    change id with (ID (mkProduct id "" float64_zero)) at 2.
    rewrite <- getProduct_db.
    destruct (getProduct _ db) as [[db' p'] [e|]]; [by destruct e|done].
  - unfold App.updateProduct.
    destruct (strconv.Atoi _) as [id [e|]]; [by left|].
    destruct (Decode (Body r) product_zero) as [p|]; [right|by left].
    exists (UpdateProduct (Name p) (Price p) id). split; [done|].
    change (UpdateProduct (Name p) (Price p) id)
      with (let q := mkProduct id (Name p) (Price p) in
            UpdateProduct (Name q) (Price q) (ID q)).
    cbn zeta. rewrite <- updateProduct_db.
    by destruct (updateProduct _ db) as [[db' p'] [e|]].
  - unfold App.deleteProduct.
    destruct (strconv.Atoi _) as [id [e|]]; [by left|right].
    exists (DeleteProduct id). split; [done|].
    change id with (ID (mkProduct id "" float64_zero)) at 2.
    rewrite <- deleteProduct_db.
    by destruct (deleteProduct _ db) as [[db' p'] [e|]].
Qed.

(** X5.  Whatever the request, a handler keeps the primary key of the
    table (no two rows with one id) and keeps the sequence ahead of every
    stored id. *)
Theorem handlers_keep_table_sound h db r :
  (keyed db -> keyed (call h db r).1) /\
  (ahead db -> ahead (call h db r).1).
Proof.
  destruct (call_db h db r) as [->|(s & _ & ->)]; [done|].
  split; [apply execute_keyed|apply execute_ahead].
Qed.

(** X6.  CreateProduct on a table whose sequence is ahead of the stored
    ids: when the body decodes and the insert is not refused, the answer is
    201 with the JSON header and, as body, the product with the next value
    of the sequence as id (no body when the price has no JSON encoding);
    the table grows by exactly that row and the sequence by one.  A clash
    of primary keys cannot occur. *)
Theorem createProduct_on_ahead db r p :
  Decode (Body r) product_zero = Some p ->
  ahead db ->
  fault db (InsertProduct (Name p) (Price p)) = None ->
  (App.createProduct db r).2
  = mkResponse 201 json_header
      (match FormatFloat (Price p) with
       | Some lit =>
           Some (JObject [("id", JNumber (strconv.Itoa (products_id_seq db)));
                          ("name", JString (Name p));
                          ("price", JNumber lit)])
       | None => None
       end) /\
  table (App.createProduct db r).1
  = (table db ++ [(products_id_seq db, Name p, numeric_10_2 (Price p))])%list /\
  products_id_seq (App.createProduct db r).1 = products_id_seq db + 1 /\
  log (App.createProduct db r).1 = InsertProduct (Name p) (Price p) :: log db.
Proof.
  intros HD Ha Hf.
  destruct (createProduct_succeeds p db Hf Ha) as [db' Hc].
  destruct (createProduct_inv _ _ _ _ Hc) as (_ & _ & _ & ->).
  unfold App.createProduct. by rewrite HD, Hc.
Qed.

(** X7.  A request that a handler answers with 400 never reaches the
    database, and no handler changes [fault]; GetProduct and ListProducts
    change neither the table nor the sequence; every handler sends at most
    one statement, of the kind that belongs to it. *)
Theorem handler_statements h db r :
  ((call h db r).1 = db \/
   exists s, sends h s /\ (call h db r).1 = (execute db s).1) /\
  (Code (call h db r).2 = 400 -> (call h db r).1 = db) /\
  (h = a_getProduct \/ h = a_getProducts ->
   table (call h db r).1 = table db /\
   products_id_seq (call h db r).1 = products_id_seq db) /\
  fault (call h db r).1 = fault db.
Proof.
  split; [apply call_db|]. split; [|split].
  - destruct h; cbn [call].
    + unfold App.getProducts.
      destruct (strconv.Atoi (FormValue r "count")) as [count ?].
      destruct (strconv.Atoi (FormValue r "start")) as [start ?].
      by destruct (getProducts db _ _) as [db' [ps [e|]]].
    + unfold App.createProduct.
      destruct (Decode (Body r) product_zero) as [p|]; [|done].
      by destruct (createProduct p db) as [[db' p'] [e|]].
    + unfold App.getProduct.
      destruct (strconv.Atoi _) as [id [e|]]; [done|].
      destruct (getProduct _ db) as [[db' p'] [e|]]; [by destruct e|done].
    + unfold App.updateProduct.
      destruct (strconv.Atoi _) as [id [e|]]; [done|].
      destruct (Decode (Body r) product_zero) as [p|]; [|done].
      by destruct (updateProduct _ db) as [[db' p'] [e|]].
    + unfold App.deleteProduct.
      destruct (strconv.Atoi _) as [id [e|]]; [done|].
      by destruct (deleteProduct _ db) as [[db' p'] [e|]].
  - intros Hh.
    destruct (call_db h db r) as [->|(s & Hs & ->)]; [done|].
    rewrite execute_table, execute_seq.
    destruct Hh as [-> | ->]; destruct s; try done; by destruct (fault db _).
  - destruct (call_db h db r) as [->|(s & _ & ->)]; [done|].
    apply execute_fault.
Qed.

(** X8.  Every response of a handler carries the header
    [Content-Type: application/json], and its status code is one of those
    of its handler: 200 or 500 for ListProducts, 201, 400 or 500 for
    CreateProduct, 200, 400, 404 or 500 for GetProduct, 200, 400 or 500
    for UpdateProduct and DeleteProduct. *)
Theorem handler_response_shape h db r :
  Header (call h db r).2 = json_header /\
  Code (call h db r).2 ∈ status_codes h.
Proof.
  destruct h; cbn [call status_codes].
  - unfold App.getProducts.
    destruct (strconv.Atoi (FormValue r "count")) as [count ?].
    destruct (strconv.Atoi (FormValue r "start")) as [start ?].
    destruct (getProducts db _ _) as [db' [ps [e|]]]; cbn; split; set_solver.
  - unfold App.createProduct.
    destruct (Decode (Body r) product_zero) as [p|];
      [destruct (createProduct p db) as [[db' p'] [e|]]|]; cbn; split; set_solver.
  - unfold App.getProduct.
    destruct (strconv.Atoi _) as [id [e|]];
      [|destruct (getProduct _ db) as [[db' p'] [[|msg]|]]]; cbn; split; set_solver.
  - unfold App.updateProduct.
    destruct (strconv.Atoi _) as [id [e|]];
      [|destruct (Decode (Body r) product_zero) as [p|];
        [destruct (updateProduct _ db) as [[db' p'] [e|]]|]]; cbn; split; set_solver.
  - unfold App.deleteProduct.
    destruct (strconv.Atoi _) as [id [e|]];
      [|destruct (deleteProduct _ db) as [[db' p'] [e|]]]; cbn; split; set_solver.
Qed.

End Invariants.

(** ** Reading products *)

Section Reading.
Context `{Platform}.

Lemma getProducts_ok db start count ps :
  (getProducts db start count).2 = (ps, None) ->
  ps = Some (product_of_row <$> range db start count) /\ 0 <= start /\ 0 <= count.
Proof.
  unfold getProducts, Query, execute. cbn [fault].
  destruct (fault db _); [done|]. cbn [run].
  destruct (Z.ltb_spec start 0); [done|].
  destruct (Z.ltb_spec count 0); [done|].
  cbn [result_rows snd]. by intros [= <-].
Qed.

Lemma range_length db start count :
  (length (range db start count) <= Z.to_nat count)%nat.
Proof. unfold range. rewrite length_take. lia. Qed.

(** X9.  [getProducts] gives the rows of the table after the first [start],
    in the order of the table and at most [count] of them, and the JSON
    array that the ListProducts handler writes never has more than 10
    elements. *)
Theorem listing_bounds db :
  (forall start count ps,
     (getProducts db start count).2 = (Some ps, None) ->
     ps = product_of_row <$> range db start count /\
     (length ps <= Z.to_nat count)%nat) /\
  (forall r js,
     Written (App.getProducts db r).2 = Some (JArray js) ->
     (length js <= 10)%nat).
Proof.
  split.
  - intros start count ps Hg.
    destruct (getProducts_ok _ _ _ _ Hg) as ([= ->] & _ & _).
    split; [done|]. rewrite length_fmap. apply range_length.
  - intros r js. unfold App.getProducts.
    destruct (strconv.Atoi (FormValue r "count")) as [count ?].
    destruct (strconv.Atoi (FormValue r "start")) as [start ?].
    rewrite clamp_count_eq, clamp_start_eq.
    destruct (getProducts db _ _) as [db' [ps [e|]]] eqn:Hg; cbn [snd].
    + by rewrite respondWithError_eq.
    + assert ((getProducts db (clamp_start start) (clamp_count count)).2
              = (ps, None)) as Hg2 by (by rewrite Hg).
      destruct (getProducts_ok _ _ _ _ Hg2) as (-> & _ & _).
      cbn [respondWithJSON Written Marshal].
      destruct (mapM _ _) as [js'|] eqn:Hm; [|done].
      intros [= <-]. rewrite <- (length_mapM _ _ _ Hm), length_fmap.
      etransitivity; [apply range_length|].
      unfold clamp_count. destruct (decide _); lia.
Qed.

Lemma keyed_filter (t : list row) r :
  NoDup (row_id <$> t) -> r ∈ t ->
  filter (fun x => has_id (row_id r) x = true) t = [r].
Proof.
  induction t as [|x t IH]; [by intros _ ?%elem_of_nil|].
  cbn [fmap list_fmap]. intros [Hx Hk]%NoDup_cons [->|Hin]%elem_of_cons.
  - rewrite filter_cons_True by (unfold has_id; apply Z.eqb_refl).
    f_equal. apply existsb_filter.
    destruct (existsb _ _) eqn:He; [|done].
    apply existsb_exists in He as (y & Hy & Hid).
    unfold has_id in Hid. apply Z.eqb_eq in Hid.
    exfalso. apply Hx. rewrite <- Hid.
    apply list_elem_of_fmap. exists y. split; [done|]. by apply list_elem_of_In.
  - rewrite filter_cons_False; [by apply IH|].
    unfold has_id. rewrite Z.eqb_eq. intros Heq. apply Hx. rewrite Heq.
    apply list_elem_of_fmap. by exists r.
Qed.

Lemma getProduct_found db p name price :
  keyed db -> (ID p, name, price) ∈ table db ->
  fault db (SelectProduct (ID p)) = None ->
  getProduct p db
  = (logged db (SelectProduct (ID p)), mkProduct (ID p) name price, None).
Proof.
  intros Hk Hin Hf. unfold getProduct, QueryRow, Query.
  rewrite execute_select by done. cbn [result_rows].
  pose proof (keyed_filter _ _ Hk Hin) as Hrows.
  change (row_id (ID p, name, price)) with (ID p) in Hrows.
  by rewrite Hrows.
Qed.

(** X10.  GetProduct on a table with its primary key: for a stored product
    (and a statement that is not refused) the handler sends the SELECT for
    that id and answers 200 with the JSON header; the body is the object
    with exactly the id, name and price of the stored row when the price
    has a JSON encoding, and empty otherwise. *)
Theorem getProduct_stored db r id name price :
  strconv.Atoi (default "" (Vars r !! "id")) = (id, None) ->
  keyed db ->
  (id, name, price) ∈ table db ->
  fault db (SelectProduct id) = None ->
  App.getProduct db r
  = (logged db (SelectProduct id),
     mkResponse 200 json_header
       (match FormatFloat price with
        | Some lit =>
            Some (JObject [("id", JNumber (strconv.Itoa id));
                           ("name", JString name);
                           ("price", JNumber lit)])
        | None => None
        end)).
Proof.
  intros HA Hk Hin Hf.
  unfold App.getProduct. rewrite HA.
  by rewrite (getProduct_found db (mkProduct id "" float64_zero) name price).
Qed.

(** X11.  The error of [json.Marshal] is dropped.  When a stored price has
    no JSON encoding, GetProduct for that product still answers 200, with
    the JSON header and no body; and ListProducts answers 200 with no body
    as soon as one product of the page has such a price. *)
Theorem marshal_failure_is_silent db id name price :
  FormatFloat price = None ->
  (forall r,
     strconv.Atoi (default "" (Vars r !! "id")) = (id, None) ->
     keyed db -> (id, name, price) ∈ table db ->
     fault db (SelectProduct id) = None ->
     (App.getProduct db r).2 = mkResponse 200 json_header None) /\
  (forall r,
     let count := clamp_count (strconv.Atoi (FormValue r "count")).1 in
     let start := clamp_start (strconv.Atoi (FormValue r "start")).1 in
     (id, name, price) ∈ range db start count ->
     fault db (SelectProducts count start) = None ->
     (App.getProducts db r).2 = mkResponse 200 json_header None).
Proof.
  intros Hnone. split.
  - intros r HA Hk Hin Hf. unfold App.getProduct. rewrite HA.
    rewrite (getProduct_found db (mkProduct id "" float64_zero) name price)
      by done.
    cbn [snd]. unfold respondWithJSON, Marshal, Marshal_product.
    cbn [Price]. by rewrite Hnone.
  - intros r count start Hin Hf. unfold App.getProducts.
    destruct (strconv.Atoi (FormValue r "count")) as [c ?].
    destruct (strconv.Atoi (FormValue r "start")) as [s0 ?].
    cbn [fst] in *. rewrite clamp_count_eq, clamp_start_eq. fold count start.
    assert (0 <= start) by (subst start; unfold clamp_start; destruct (decide _); lia).
    assert (0 <= count) by (subst count; unfold clamp_count; destruct (decide _); lia).
    unfold getProducts, Query, execute. cbn [fault]. rewrite Hf. cbn [run].
    destruct (Z.ltb_spec start 0); [lia|].
    destruct (Z.ltb_spec count 0); [lia|].
    cbn [result_rows snd]. unfold respondWithJSON, Marshal.
    fold (range db start count).
    rewrite (proj2 (mapM_None _ _)); [done|].
    apply Exists_exists. exists (mkProduct id name price). split.
    + apply list_elem_of_fmap. by exists (id, name, price).
    + unfold Marshal_product. cbn [Price]. by rewrite Hnone.
Qed.

(** X12.  CreateProduct never takes an id from the client: two bodies that
    decode to the same name and price, whatever ids they hold, have the
    same effect on the database and get the same response. *)
Theorem createProduct_ignores_id db r1 r2 p1 p2 :
  Decode (Body r1) product_zero = Some p1 ->
  Decode (Body r2) product_zero = Some p2 ->
  Name p1 = Name p2 -> Price p1 = Price p2 ->
  App.createProduct db r1 = App.createProduct db r2.
Proof.
  intros H1 H2 Hn Hp. unfold App.createProduct. rewrite H1, H2.
  unfold createProduct. rewrite Hn, Hp.
  destruct (QueryRow db _) as [db' [e|[[i n] pr]]]; done.
Qed.

End Reading.

(** ** Routing *)

Lemma strip_prefix_exact prefix seg :
  strip_prefix prefix (prefix +:+ seg) = Some seg.
Proof.
  induction prefix as [|a prefix IH]; [done|].
  simpl. by rewrite Ascii.eqb_refl.
Qed.

Lemma method_in (m m' : string) : bool_decide (m ∈ [m']) = String.eqb m m'.
Proof.
  destruct (String.eqb_spec m m') as [->|Hne].
  - apply bool_decide_eq_true_2. by apply list_elem_of_singleton.
  - apply bool_decide_eq_false_2. by rewrite list_elem_of_singleton.
Qed.

Lemma matchTemplate_Fixed p path vars :
  matchTemplate (Fixed p) path = Some vars <-> path = p /\ vars = ∅.
Proof.
  simpl. destruct (String.eqb_spec path p) as [->|Hne]; split.
  - by intros [= <-].
  - by intros [_ ->].
  - done.
  - by intros [? _].
Qed.

Lemma matchTemplate_Numeric_iff prefix name path vars :
  matchTemplate (Numeric prefix name) path = Some vars <->
  exists seg, path = prefix +:+ seg /\ match_digits seg = true /\ vars = {[name := seg]}.
Proof.
  split; [apply matchTemplate_Numeric|].
  intros (seg & -> & Hd & ->). cbn [matchTemplate].
  by rewrite strip_prefix_exact, Hd.
Qed.

(** X13.  The routing table.  A request is routed exactly when it is
    [GET /products], [POST /product], or [GET], [PUT] or [DELETE] on
    [/product/] followed by a non-empty string of digits; the handler is
    then the one registered for that method, and the only route variable
    is [id], bound to the digits.  No route shadows another. *)
Theorem routing_table r h vars :
  Match initializeRoutes r = Some (h, vars) <->
  (Method r = "GET" /\ Path r = "/products" /\ h = a_getProducts /\ vars = ∅) \/
  (Method r = "POST" /\ Path r = "/product" /\ h = a_createProduct /\ vars = ∅) \/
  (exists seg,
     Path r = "/product/" +:+ seg /\ match_digits seg = true /\
     vars = {["id" := seg]} /\
     ((Method r = "GET" /\ h = a_getProduct) \/
      (Method r = "PUT" /\ h = a_updateProduct) \/
      (Method r = "DELETE" /\ h = a_deleteProduct))).
Proof.
  unfold initializeRoutes, Match, routeMatch.
  cbn [route_methods route_template route_handler].
  rewrite !method_in. split.
  - intros HM.
    repeat match type of HM with
    | context [String.eqb (Method r) ?m] =>
        destruct (String.eqb_spec (Method r) m)
    | context [matchTemplate ?t ?p] =>
        let E := fresh "E" in destruct (matchTemplate t p) eqn:E
    end;
    try discriminate; injection HM as <- <-;
    repeat match goal with
    | E : matchTemplate (Fixed _) _ = Some _ |- _ =>
        apply matchTemplate_Fixed in E as [? ->]
    | E : matchTemplate (Numeric _ _) _ = Some _ |- _ =>
        apply matchTemplate_Numeric in E as (seg & ? & ? & ->)
    end;
    try (by left); try (by right; left);
    right; right; exists seg; by eauto 10.
  - intros [(Hm & Hp & -> & ->)|[(Hm & Hp & -> & ->)|(seg & Hp & Hd & -> & Hmh)]];
      rewrite Hp.
    + rewrite Hm. reflexivity.
    + rewrite Hm. reflexivity.
    + assert (matchTemplate (Numeric "/product/" "id") ("/product/" +:+ seg)
              = Some {["id" := seg]}) as ->
        by (apply matchTemplate_Numeric_iff; eauto).
      assert (matchTemplate (Fixed "/products") ("/product/" +:+ seg) = None) as ->
        by reflexivity.
      assert (matchTemplate (Fixed "/product") ("/product/" +:+ seg) = None) as ->
        by reflexivity.
      destruct Hmh as [[-> ->]|[[-> ->]|[-> ->]]]; reflexivity.
Qed.

(** X14.  An id that is not a non-empty string of digits reaches no
    handler, whatever the method: the path matches no route. *)
Theorem non_numeric_id_not_routed `{Platform} db r seg :
  Path r = "/product/" +:+ seg ->
  match_digits seg = false ->
  Match initializeRoutes r = None /\ ServeHTTP db r = None.
Proof.
  intros Hp Hd.
  assert (Match initializeRoutes r = None) as HM.
  { unfold initializeRoutes, Match, routeMatch.
    cbn [route_methods route_template route_handler].
    rewrite Hp.
    assert (matchTemplate (Numeric "/product/" "id") ("/product/" +:+ seg) = None) as ->.
    { cbn [matchTemplate]. by rewrite strip_prefix_exact, Hd. }
    assert (matchTemplate (Fixed "/products") ("/product/" +:+ seg) = None) as ->
      by reflexivity.
    assert (matchTemplate (Fixed "/product") ("/product/" +:+ seg) = None) as ->
      by reflexivity.
    by repeat destruct (bool_decide _). }
  split; [done|]. unfold ServeHTTP. by rewrite HM.
Qed.

(** ** From a created id back to its product *)

Lemma digit_digit_char d :
  0 <= d <= 9 -> strconv.digit (strconv.digit_char d) = Some d.
Proof.
  intros Hd.
  assert (d = 0 \/ d = 1 \/ d = 2 \/ d = 3 \/ d = 4 \/
          d = 5 \/ d = 6 \/ d = 7 \/ d = 8 \/ d = 9) as Hcases by lia.
  repeat (destruct Hcases as [->|Hcases]; [reflexivity|]).
  by subst.
Qed.

Lemma Itoa_pos_numeral fuel : forall n acc,
  (0 < fuel)%nat -> 0 <= n < 10 ^ Z.of_nat fuel ->
  numeral_from (strconv.Itoa_pos fuel n acc) 0 = numeral_from acc n /\
  all_digits (strconv.Itoa_pos fuel n acc) = all_digits acc /\
  strconv.Itoa_pos fuel n acc <> "".
Proof.
  induction fuel as [|fuel IH]; intros n acc Hfuel Hn; [lia|].
  cbn [strconv.Itoa_pos].
  assert (0 <= n mod 10 <= 9) as Hd by (pose proof (Z.mod_pos_bound n 10); lia).
  pose proof (digit_digit_char _ Hd) as Hdc.
  destruct (Z.ltb_spec n 10) as [Hsmall|Hbig].
  - rewrite Z.mod_small in * by lia.
    cbn [numeral_from all_digits]. rewrite Hdc.
    split; [f_equal; cbn; lia|].
    split; [by rewrite bool_decide_eq_true_2|done].
  - assert (0 < fuel)%nat as Hpos.
    { destruct fuel; [|lia]. change (10 ^ Z.of_nat 1) with 10 in Hn. lia. }
    rewrite Nat2Z.inj_succ, Z.pow_succ_r in Hn by lia.
    assert (0 <= n / 10 < 10 ^ Z.of_nat fuel) as Hq.
    { split; [apply Z.div_pos; lia|apply Z.div_lt_upper_bound; lia]. }
    destruct (IH (n / 10) (String (strconv.digit_char (n mod 10)) acc) Hpos Hq)
      as (Hnum & Hall & Hne).
    rewrite Hnum, Hall. cbn [numeral_from all_digits]. rewrite Hdc.
    split; [|split; [by rewrite bool_decide_eq_true_2|done]].
    f_equal. cbn. pose proof (Z.div_mod n 10). lia.
Qed.

Lemma Itoa_numeral n :
  0 <= n <= maxInt ->
  match_digits (strconv.Itoa n) = true /\ numeral (strconv.Itoa n) = n.
Proof.
  intros Hn. unfold strconv.Itoa.
  destruct (Z.ltb_spec n 0); [lia|].
  destruct (Itoa_pos_numeral 20 n "" ltac:(lia)) as (Hnum & Hall & Hne).
  { unfold maxInt in Hn. change (10 ^ Z.of_nat 20) with 100000000000000000000.
    lia. }
  split; [|exact Hnum].
  unfold match_digits. rewrite Hall. cbn [all_digits]. rewrite andb_true_r.
  apply negb_true_iff. by apply String.eqb_neq.
Qed.

Lemma Atoi_Itoa id :
  0 <= id <= maxInt -> strconv.Atoi (strconv.Itoa id) = (id, None).
Proof.
  intros Hid. destruct (Itoa_numeral id Hid) as [Hd Hnum].
  rewrite (Atoi_numeral _ Hd), Hnum.
  destruct (Z.leb_spec id maxInt); [done|lia].
Qed.

Lemma Match_product_id r seg :
  Path r = "/product/" +:+ seg -> match_digits seg = true ->
  (Method r = "GET" ->
   Match initializeRoutes r = Some (a_getProduct, {["id" := seg]})) /\
  (Method r = "PUT" ->
   Match initializeRoutes r = Some (a_updateProduct, {["id" := seg]})) /\
  (Method r = "DELETE" ->
   Match initializeRoutes r = Some (a_deleteProduct, {["id" := seg]})).
Proof.
  intros Hp Hd.
  unfold initializeRoutes, Match, routeMatch.
  cbn [route_methods route_template route_handler].
  rewrite !method_in, Hp.
  assert (matchTemplate (Numeric "/product/" "id") ("/product/" +:+ seg)
          = Some {["id" := seg]}) as ->
    by (apply matchTemplate_Numeric_iff; eauto).
  assert (matchTemplate (Fixed "/products") ("/product/" +:+ seg) = None) as ->
    by reflexivity.
  assert (matchTemplate (Fixed "/product") ("/product/" +:+ seg) = None) as ->
    by reflexivity.
  repeat split; intros ->; reflexivity.
Qed.

Section RoundTrips.
Context `{Platform}.

(** X15.  An id as it is written into a response finds its way back: for
    every id from 0 to 2^63-1, [Itoa id] is a non-empty string of digits,
    [GET], [PUT] and [DELETE] on [/product/] followed by it are routed to
    the handler of the method, and the handler's [Atoi] reads the same id
    again. *)
Theorem id_round_trip id r :
  0 <= id <= maxInt ->
  Path r = "/product/" +:+ strconv.Itoa id ->
  strconv.Atoi (strconv.Itoa id) = (id, None) /\
  (Method r = "GET" ->
   Match initializeRoutes r = Some (a_getProduct, {["id" := strconv.Itoa id]})) /\
  (Method r = "PUT" ->
   Match initializeRoutes r = Some (a_updateProduct, {["id" := strconv.Itoa id]})) /\
  (Method r = "DELETE" ->
   Match initializeRoutes r = Some (a_deleteProduct, {["id" := strconv.Itoa id]})).
Proof.
  intros Hid Hp. split; [by apply Atoi_Itoa|].
  apply Match_product_id; [done|]. by apply Itoa_numeral.
Qed.

Lemma getProduct_after_create db p db1 p1 q :
  createProduct p db = (db1, p1, None) ->
  ID q = products_id_seq db ->
  fault db1 (SelectProduct (products_id_seq db)) = None ->
  getProduct q db1
  = (logged db1 (SelectProduct (products_id_seq db)),
     mkProduct (products_id_seq db) (Name p) (numeric_10_2 (Price p)), None).
Proof.
  intros Hc Hq Hf.
  destruct (createProduct_inv _ _ _ _ Hc) as (_ & Hfresh & -> & ->).
  unfold getProduct, QueryRow, Query. rewrite Hq.
  rewrite execute_select by done. cbn [result_rows table].
  rewrite filter_app, (existsb_filter _ _ Hfresh).
  rewrite filter_cons_True by (unfold has_id, row_id; cbn; apply Z.eqb_refl).
  done.
Qed.

(** X16.  Over HTTP: when [POST /product] with a body that decodes is
    answered with 201, the response has the JSON header and its body shows
    the id that the sequence gave with the submitted name and price; and
    [GET /product/<that id>] on the resulting database (not refused, the id
    within 0 and 2^63-1) is answered with 200, the JSON header and a body
    with that id, the submitted name, and the submitted price as the column
    keeps it.  A price without JSON encoding leaves the body empty. *)
Theorem create_then_get_over_http db r p db1 resp g :
  Method r = "POST" -> Path r = "/product" ->
  Decode (Body r) product_zero = Some p ->
  ServeHTTP db r = Some (db1, resp) ->
  Code resp = 201 ->
  0 <= products_id_seq db <= maxInt ->
  Method g = "GET" ->
  Path g = "/product/" +:+ strconv.Itoa (products_id_seq db) ->
  fault db1 (SelectProduct (products_id_seq db)) = None ->
  resp
  = mkResponse 201 json_header
      (match FormatFloat (Price p) with
       | Some lit =>
           Some (JObject [("id", JNumber (strconv.Itoa (products_id_seq db)));
                          ("name", JString (Name p));
                          ("price", JNumber lit)])
       | None => None
       end) /\
  ServeHTTP db1 g
  = Some (logged db1 (SelectProduct (products_id_seq db)),
          mkResponse 200 json_header
            (match FormatFloat (numeric_10_2 (Price p)) with
             | Some lit =>
                 Some (JObject
                         [("id", JNumber (strconv.Itoa (products_id_seq db)));
                          ("name", JString (Name p));
                          ("price", JNumber lit)])
             | None => None
             end)).
Proof.
  intros Hm Hp HD HS Hcode Hseq Hgm Hgp Hf.
  assert (Match initializeRoutes r = Some (a_createProduct, ∅)) as HM.
  { unfold initializeRoutes, Match, routeMatch.
    cbn [route_methods route_template route_handler].
    rewrite !method_in, Hm, Hp. reflexivity. }
  unfold ServeHTTP in HS. rewrite HM in HS. cbn [call] in HS.
  unfold App.createProduct in HS. cbn [Body] in HS. rewrite HD in HS.
  destruct (createProduct p db) as [[db' p'] [e|]] eqn:Hc.
  { injection HS as <- <-. by rewrite respondWithError_eq in Hcode. }
  injection HS as <- <-.
  pose proof (createProduct_inv _ _ _ _ Hc) as (_ & _ & Hp' & _).
  split; [by rewrite Hp'|].
  pose proof (Atoi_Itoa _ Hseq) as HA.
  destruct (Match_product_id g _ Hgp (proj1 (Itoa_numeral _ Hseq))) as [HG _].
  unfold ServeHTTP. rewrite (HG Hgm). cbn [call].
  unfold App.getProduct. cbn [Vars]. rewrite lookup_singleton_eq.
  cbn [default from_option id]. rewrite HA.
  by rewrite (getProduct_after_create db p db' p' _ Hc).
Qed.

End RoundTrips.

(** ** Pages *)

Section Pages.
Context `{Platform}.

Lemma mapM_Marshal_rows (rows : list row) :
  mapM Marshal_product (product_of_row <$> rows) = mapM row_json rows.
Proof.
  induction rows as [|[[id name] price] rows IH]; [done|].
  cbn [fmap list_fmap mapM]. rewrite IH. reflexivity.
Qed.

(** X17.  ListProducts, when its query is not refused, sends that one
    query with the clamped [start] and [count] and answers 200 with the
    JSON header.  The body is the array of the objects of one page: the
    rows of the table after the first [start], at most [count] of them, in
    the order of the table; it is empty when a price of the page has no
    JSON encoding.  Without parameters the page is the first 10 rows. *)
Theorem getProducts_page db r :
  let count := clamp_count (strconv.Atoi (FormValue r "count")).1 in
  let start := clamp_start (strconv.Atoi (FormValue r "start")).1 in
  fault db (SelectProducts count start) = None ->
  App.getProducts db r
  = (logged db (SelectProducts count start),
     mkResponse 200 json_header
       (JArray <$> mapM row_json (range db start count))) /\
  (Form r !! "count" = None -> Form r !! "start" = None ->
   range db start count = take 10 (table db)).
Proof.
  intros count start Hf. split.
  - unfold App.getProducts.
    destruct (strconv.Atoi (FormValue r "count")) as [c ?].
    destruct (strconv.Atoi (FormValue r "start")) as [s0 ?].
    cbn [fst] in *. rewrite clamp_count_eq, clamp_start_eq. fold count start.
    assert (0 <= start) by (subst start; unfold clamp_start; destruct (decide _); lia).
    assert (0 <= count) by (subst count; unfold clamp_count; destruct (decide _); lia).
    unfold getProducts, Query, execute. cbn [fault]. rewrite Hf. cbn [run].
    destruct (Z.ltb_spec start 0); [lia|].
    destruct (Z.ltb_spec count 0); [lia|].
    cbn [result_rows]. unfold respondWithJSON, Marshal.
    fold (range db start count).
    change (fun '(id, name, price) => mkProduct id name price)
      with product_of_row.
    by rewrite mapM_Marshal_rows.
  - intros Hc Hs. subst count start. unfold FormValue. rewrite Hc, Hs.
    reflexivity.
Qed.

End Pages.

(** ** More of the code on the sample data *)

Section MoreWitnesses.
#[local] Existing Instance FixedPoint.platform.
Import Sample Fixture.

Lemma two_db_keyed : keyed two_db.
Proof.
  unfold keyed. cbn. apply NoDup_cons. split; [|apply NoDup_singleton].
  rewrite list_elem_of_singleton. discriminate.
Qed.

(** X1 on product 1 of two. *)
Lemma delete_then_fetch_witness :
  deleteProduct (item 1 "" 0) two_db = (deleted_db, item 1 "" 0, None) /\
  getProduct (item 1 "" 0) deleted_db
  = (logged deleted_db (SelectProduct 1), item 1 "" 0, Some ErrNoRows) /\
  (App.getProduct deleted_db (routed "GET" "/product/1" "1" None)).2
  = error_response 404 "Product not found".
Proof.
  split; [reflexivity|].
  destruct (delete_then_fetch two_db (item 1 "" 0) deleted_db (item 1 "" 0)
              (item 1 "" 0) eq_refl eq_refl eq_refl) as [Hmodel Hhandler].
  split; [exact Hmodel|]. apply Hhandler. reflexivity.
Defined.

(** X2 on product 1 of two, renamed and priced at 11.225: fetched with
    the price 11.23. *)
Lemma update_then_fetch_witness :
  updateProduct (item 1 "renamed" 112250) two_db
  = (updated_db, item 1 "renamed" 112250, None) /\
  stored 1 two_db /\
  getProduct (item 1 "" 0) updated_db
  = (logged updated_db (SelectProduct 1), item 1 "renamed" 112300, None).
Proof.
  assert (stored 1 two_db) as Hs by (by left).
  split; [reflexivity|]. split; [exact Hs|].
  apply (update_then_fetch two_db (item 1 "renamed" 112250) updated_db
           (item 1 "renamed" 112250) (item 1 "" 0) eq_refl Hs eq_refl eq_refl).
Defined.

(** X3 on the id 7, which neither of the two products has. *)
Lemma update_delete_absent_noop_witness :
  absent 7 two_db /\
  table (updateProduct (item 7 "ghost" 100) two_db).1.1 = table two_db /\
  table (deleteProduct (item 7 "" 0) two_db).1.1 = table two_db.
Proof.
  assert (absent 7 two_db) as Ha by (repeat constructor; discriminate).
  split; [exact Ha|].
  destruct (update_delete_absent_noop two_db (item 7 "ghost" 100) Ha)
    as (Hu & _ & _ & _).
  destruct (update_delete_absent_noop two_db (item 7 "" 0) Ha)
    as (_ & Hd & _ & _).
  split; [exact Hu|exact Hd].
Defined.

(** X4 on product 2 while product 1 is updated or deleted. *)
Lemma other_rows_untouched_witness :
  (2, "Product 1", 200000) ∈ table (updateProduct (item 1 "renamed" 112250) two_db).1.1 /\
  (2, "Product 1", 200000) ∈ table (deleteProduct (item 1 "" 0) two_db).1.1 /\
  (2, "Product 1", 200000) ∈ table (createProduct (item 0 "new" 100) two_db).1.1.
Proof.
  assert ((2, "Product 1", 200000) ∈ table two_db) as Hin
    by (right; left).
  destruct (other_rows_untouched two_db (item 1 "renamed" 112250)
              (2, "Product 1", 200000)) as [Hother _].
  destruct (Hother ltac:(discriminate)) as [Hu Hd].
  destruct (other_rows_untouched two_db (item 0 "new" 100)
              (2, "Product 1", 200000)) as [_ Hc].
  split; [by apply Hu|]. split; [by apply Hd|by apply Hc].
Defined.

(** X5 on the table of two and a create. *)
Lemma handlers_keep_table_sound_witness :
  keyed two_db /\ ahead two_db /\
  keyed (call a_createProduct two_db (request "POST" "/product" (Some test_product))).1 /\
  ahead (call a_createProduct two_db (request "POST" "/product" (Some test_product))).1.
Proof.
  pose proof two_db_keyed as Hk.
  assert (ahead two_db) as Ha by (repeat constructor).
  destruct (handlers_keep_table_sound a_createProduct two_db
              (request "POST" "/product" (Some test_product))) as [Hk' Ha'].
  split; [exact Hk|]. split; [exact Ha|]. split; [by apply Hk'|by apply Ha'].
Defined.

(** X6 on the table of two: the new product gets the id 3. *)
Lemma createProduct_on_ahead_witness :
  ahead two_db /\
  (App.createProduct two_db (request "POST" "/product" (Some test_product))).2
  = mkResponse 201 json_header
      (Some (JObject [("id", JNumber "3");
                      ("name", JString "test product");
                      ("price", JNumber "11.22")])).
Proof.
  assert (ahead two_db) as Ha by (repeat constructor).
  split; [exact Ha|].
  apply (createProduct_on_ahead two_db
           (request "POST" "/product" (Some test_product))
           (item 0 "test product" 112200) eq_refl Ha eq_refl).
Defined.

(** X7 on an update with a body that is no JSON: 400, and the database is
    as before. *)
Lemma handler_statements_witness :
  Code (call a_updateProduct two_db (routed "PUT" "/product/1" "1" None)).2 = 400 /\
  (call a_updateProduct two_db (routed "PUT" "/product/1" "1" None)).1 = two_db /\
  table (call a_getProduct two_db (routed "GET" "/product/1" "1" None)).1
  = table two_db.
Proof.
  destruct (handler_statements a_updateProduct two_db
              (routed "PUT" "/product/1" "1" None)) as (_ & H400 & _ & _).
  destruct (handler_statements a_getProduct two_db
              (routed "GET" "/product/1" "1" None)) as (_ & _ & Hread & _).
  split; [reflexivity|]. split; [apply H400; reflexivity|].
  apply Hread. by left.
Defined.

(** X9 on the table of two, with [count=1]. *)
Lemma listing_bounds_witness :
  (getProducts two_db 1 1).2 = (Some [item 2 "Product 1" 200000], None) /\
  (length [item 2 "Product 1" 200000] <= Z.to_nat 1)%nat.
Proof.
  destruct (listing_bounds two_db) as [Hmodel _].
  split; [reflexivity|].
  apply (Hmodel 1 1 [item 2 "Product 1" 200000] eq_refl).
Defined.

(** X17 on the table of two, without parameters. *)
Lemma getProducts_page_witness :
  App.getProducts two_db (request "GET" "/products" None)
  = (logged two_db (SelectProducts 10 0),
     mkResponse 200 json_header
       (Some (JArray [JObject [("id", JNumber "1");
                               ("name", JString "Product 0");
                               ("price", JNumber "10")];
                      JObject [("id", JNumber "2");
                               ("name", JString "Product 1");
                               ("price", JNumber "20")]]))).
Proof.
  apply (getProducts_page two_db (request "GET" "/products" None) eq_refl).
Defined.

(** X10 on product 2 of two. *)
Lemma getProduct_stored_witness :
  keyed two_db /\
  (2, "Product 1", 200000) ∈ table two_db /\
  App.getProduct two_db (routed "GET" "/product/2" "2" None)
  = (logged two_db (SelectProduct 2),
     mkResponse 200 json_header
       (Some (JObject [("id", JNumber "2");
                       ("name", JString "Product 1");
                       ("price", JNumber "20")]))).
Proof.
  pose proof two_db_keyed as Hk.
  assert ((2, "Product 1", 200000) ∈ table two_db) as Hin by (right; left).
  split; [exact Hk|]. split; [exact Hin|].
  apply (getProduct_stored two_db (routed "GET" "/product/2" "2" None)
           2 "Product 1" 200000 eq_refl Hk Hin eq_refl).
Defined.

(** X12 on the test product, with and without an id in the body. *)
Lemma createProduct_ignores_id_witness :
  Decode (Some with_id) product_zero = Some (item 5 "test product" 112200) /\
  Decode (Some test_product) product_zero = Some (item 0 "test product" 112200) /\
  App.createProduct two_db (request "POST" "/product" (Some with_id))
  = App.createProduct two_db (request "POST" "/product" (Some test_product)).
Proof.
  split; [reflexivity|]. split; [reflexivity|].
  apply (createProduct_ignores_id two_db
           (request "POST" "/product" (Some with_id))
           (request "POST" "/product" (Some test_product))
           (item 5 "test product" 112200) (item 0 "test product" 112200));
    reflexivity.
Defined.

(** X14 on [GET /product/abc]. *)
Lemma non_numeric_id_not_routed_witness :
  match_digits "abc" = false /\
  ServeHTTP two_db (request "GET" "/product/abc" None) = None.
Proof.
  split; [reflexivity|].
  apply (non_numeric_id_not_routed two_db (request "GET" "/product/abc" None) "abc");
    reflexivity.
Defined.

(** X15 on the id 42. *)
Lemma id_round_trip_witness :
  strconv.Itoa 42 = "42" /\
  strconv.Atoi (strconv.Itoa 42) = (42, None) /\
  Match initializeRoutes (request "DELETE" "/product/42" None)
  = Some (a_deleteProduct, {["id" := "42"]}).
Proof.
  split; [reflexivity|].
  destruct (id_round_trip 42 (request "DELETE" "/product/42" None))
    as (HA & _ & _ & HD); [unfold maxInt; lia|reflexivity|].
  split; [exact HA|]. apply HD. reflexivity.
Defined.

(** X16 on the test product, created in the empty table and read back
    under [/product/1]. *)
Lemma create_then_get_over_http_witness :
  ServeHTTP empty_db (request "POST" "/product" (Some test_product))
  = Some (created_db,
          mkResponse 201 json_header
            (Some (JObject [("id", JNumber "1");
                            ("name", JString "test product");
                            ("price", JNumber "11.22")]))) /\
  ServeHTTP created_db (request "GET" "/product/1" None)
  = Some (logged created_db (SelectProduct 1),
          mkResponse 200 json_header
            (Some (JObject [("id", JNumber "1");
                            ("name", JString "test product");
                            ("price", JNumber "11.22")]))).
Proof.
  split; [reflexivity|].
  apply (create_then_get_over_http empty_db
           (request "POST" "/product" (Some test_product))
           (item 0 "test product" 112200) created_db
           (mkResponse 201 json_header
              (Some (JObject [("id", JNumber "1");
                              ("name", JString "test product");
                              ("price", JNumber "11.22")])))
           (request "GET" "/product/1" None));
    (reflexivity || (unfold maxInt; cbn; lia)).
Defined.

End MoreWitnesses.

(** X11 on a row whose price is [NaN]: 200 with no body. *)
Lemma marshal_failure_is_silent_witness :
  @FormatFloat FixedPointNaN.platform None = None /\
  (@App.getProduct FixedPointNaN.platform FixedPointNaN.nan_db
     (Sample.routed "GET" "/product/1" "1" None)).2
  = mkResponse 200 json_header None /\
  (@App.getProducts FixedPointNaN.platform FixedPointNaN.nan_db
     (Sample.request "GET" "/products" None)).2
  = mkResponse 200 json_header None.
Proof.
  destruct (@marshal_failure_is_silent FixedPointNaN.platform
              FixedPointNaN.nan_db 1 "broken" None eq_refl) as [Hone Hlist].
  split; [reflexivity|]. split.
  - apply Hone; [reflexivity| |by left|reflexivity].
    unfold keyed. cbn. apply NoDup_singleton.
  - apply Hlist; [by left|reflexivity].
Defined.
